(** * Advection-diffusion-reaction notebook: a verified model

  A shallow embedding of [notebooks/advection-diffusion-reaction.py]:
  the variational forms the script builds (as the UFL expression trees
  the Python operators construct), the [NavierStokesSolver] class and
  the time-stepping loop, run in a small state-and-exception monad over
  an abstract finite-element back end. *)

From Stdlib Require Import ZArith QArith Qround Qabs List String Bool Lia Lqa.
Import ListNotations.

Set Implicit Arguments.

(** ** Python numbers

  The script mixes [int] and [float].  A float is represented by the
  rational it denotes; rounding is not modelled.  The only floats the
  program branches on are [num_steps / 100] and [k % out_interval],
  which are small integers and exact in binary64. *)
Module Py.

Inductive num : Type :=
| Int (z : Z)
| Float (q : Q).

Definition to_Q (a : num) : Q :=
  match a with
  | Int z => inject_Z z
  | Float q => q
  end.

Definition is_zero (a : num) : bool := Qeq_bool (to_Q a) 0.

(** [a + b] *)
Definition add (a b : num) : num :=
  match a, b with
  | Int x, Int y => Int (x + y)
  | _, _ => Float (Qred (to_Q a + to_Q b))
  end.

(** [a / b]: true division, always a float; [None] is ZeroDivisionError. *)
Definition truediv (a b : num) : option num :=
  if is_zero b then None
  else Some (Float (Qred (to_Q a / to_Q b))).

(** [a % b]: the result takes the sign of [b]; [None] is
    ZeroDivisionError. *)
Definition mod_ (a b : num) : option num :=
  if is_zero b then None
  else match a, b with
       | Int x, Int y => Some (Int (x mod y))
       | _, _ =>
           let qa := to_Q a in
           let qb := to_Q b in
           Some (Float (Qred (qa - qb * inject_Z (Qfloor (qa / qb)))))
       end.

(** [a == b]: numbers compare by value across [int] and [float]. *)
Definition eq (a b : num) : bool := Qeq_bool (to_Q a) (to_Q b).

(** [range(n)] *)
Definition range (n : Z) : list Z :=
  map Z.of_nat (seq 0 (Z.to_nat n)).

End Py.

(** ** C++ snippets handed to [Expression] and [DirichletBC]

  The strings of the script, parsed with the C++ precedences. *)
Module Cpp.

Inductive code : Type :=
| Num (q : Q)                      (* a literal: 0.1, 4.0, 2.2, 0 *)
| X (i : nat)                      (* x[i] *)
| Add (a b : code)
| Sub (a b : code)
| Mul (a b : code)
| Div (a b : code)
| Pow (a : code) (n : Z)           (* pow(a, n), n an integer literal *)
| Lt (a b : code)
| Gt (a b : code)
| And (a b : code)
| Or (a b : code)
| Near (a b : code)                (* near(a, b) *)
| OnBoundary                       (* on_boundary *)
| Cond (c a b : code).             (* c ? a : b *)

Definition of_bool (b : bool) : Q := if b then 1 else 0.
Definition truthy (q : Q) : bool := negb (Qeq_bool q 0).

Definition Qltb (a b : Q) : bool := negb (Qle_bool b a).

Section Eval.
(** The tolerance of the library's [near] (DOLFIN_EPS there), the point,
    and whether the point lies on the boundary of the mesh. *)
Variable eps : Q.
Variable x : nat -> Q.
Variable on_boundary : bool.

(** Values are doubles; a condition is 1 or 0, as in C++. *)
Fixpoint eval (c : code) : Q :=
  match c with
  | Num q => q
  | X i => x i
  | Add a b => eval a + eval b
  | Sub a b => eval a - eval b
  | Mul a b => eval a * eval b
  | Div a b => eval a / eval b
  | Pow a n => Qpower (eval a) n
  | Lt a b => of_bool (Qltb (eval a) (eval b))
  | Gt a b => of_bool (Qltb (eval b) (eval a))
  | And a b => of_bool (truthy (eval a) && truthy (eval b))
  | Or a b => of_bool (truthy (eval a) || truthy (eval b))
  | Near a b => of_bool (Qle_bool (Qabs (eval a - eval b)) eps)
  | OnBoundary => of_bool on_boundary
  | Cond c a b => if truthy (eval c) then eval a else eval b
  end.

Definition holds (c : code) : bool := truthy (eval c).
End Eval.

End Cpp.

(** ** UFL expressions and forms *)
Module UFL.

(** The [Function] objects of the script: [w], [u], [u_n] and the four
    fields of the solver object. *)
Inductive fname : Type :=
| w | u | u_n | ns_u_k | ns_u_ | ns_p_k | ns_p_.

(** The function spaces: [W], [V], and [self.V], [self.Q]. *)
Inductive space : Type :=
| W | V | ns_V | ns_Q.

(** The value of a [Constant]. *)
Inductive cval : Type :=
| Scalar (a : Py.num)
| Vector (l : list Py.num).

Inductive measure : Type := dx | ds.

Inductive expr : Type :=
| Function (f : fname)
| TestFunction (Vh : space)
| TrialFunction (Vh : space)
| Split (e : expr) (i : nat)          (* i-th component of a mixed function *)
| Constant (c : cval)
| Expression (c : list Cpp.code) (degree : nat)
| Lit (a : Py.num)                    (* a Python number inside a form *)
| FacetNormal
| Identity (n : nat)
| Add (a b : expr)
| Sub (a b : expr)
| Mul (a b : expr)
| TrueDiv (a b : expr)
| dot (a b : expr)
| inner (a b : expr)
| grad (a : expr)
| nabla_grad (a : expr)
| div (a : expr)
| sym (a : expr).

Inductive form : Type :=
| Integral (e : expr) (m : measure)
| FAdd (a b : form)
| FSub (a b : form).

(** What [assemble] and [solve] receive: a form as written, or the
    bilinear / linear part the library's [lhs] / [rhs] take from it. *)
Inductive aform : Type :=
| plain (f : form)
| lhs (f : form)
| rhs (f : form).

Declare Scope ufl_scope.
Delimit Scope ufl_scope with ufl.
Bind Scope ufl_scope with expr.
Declare Scope form_scope.
Delimit Scope form_scope with form.
Bind Scope form_scope with form.

Notation "a + b" := (Add a b) : ufl_scope.
Notation "a - b" := (Sub a b) : ufl_scope.
Notation "a * b" := (Mul a b) : ufl_scope.
Notation "a / b" := (TrueDiv a b) : ufl_scope.
Notation "a + b" := (FAdd a b) : form_scope.
Notation "a - b" := (FSub a b) : form_scope.
#[warning="-postfix-notation-not-level-1"]
Notation "e '*dx'" := (Integral e dx) (at level 40, left associativity) : form_scope.
#[warning="-postfix-notation-not-level-1"]
Notation "e '*ds'" := (Integral e ds) (at level 40, left associativity) : form_scope.

End UFL.

Import UFL.
Open Scope string_scope.
Open Scope list_scope.

(** ** The forms of the advection-diffusion-reaction system *)

(** [v_1, v_2, v_3 = TestFunctions(V)] *)
Definition v_1 : expr := Split (TestFunction V) 0.
Definition v_2 : expr := Split (TestFunction V) 1.
Definition v_3 : expr := Split (TestFunction V) 2.

(** [u_1, u_2, u_3 = split(u)] and [u_n1, u_n2, u_n3 = split(u_n)] *)
Definition u_1 : expr := Split (Function u) 0.
Definition u_2 : expr := Split (Function u) 1.
Definition u_3 : expr := Split (Function u) 2.
Definition u_n1 : expr := Split (Function u_n) 0.
Definition u_n2 : expr := Split (Function u_n) 1.
Definition u_n3 : expr := Split (Function u_n) 2.

(** The source terms:
    ['pow(x[0]-0.1,2)+pow(x[1]-0.1,2)<0.05*0.05 ? 0.1 : 0'] and
    ['pow(x[0]-0.1,2)+pow(x[1]-0.3,2)<0.05*0.05 ? 0.1 : 0']. *)
Definition f_1 : expr :=
  Expression
    [Cpp.Cond
       (Cpp.Lt (Cpp.Add (Cpp.Pow (Cpp.Sub (Cpp.X 0) (Cpp.Num 0.1)) 2)
                        (Cpp.Pow (Cpp.Sub (Cpp.X 1) (Cpp.Num 0.1)) 2))
               (Cpp.Mul (Cpp.Num 0.05) (Cpp.Num 0.05)))
       (Cpp.Num 0.1) (Cpp.Num 0)] 1.
Definition f_2 : expr :=
  Expression
    [Cpp.Cond
       (Cpp.Lt (Cpp.Add (Cpp.Pow (Cpp.Sub (Cpp.X 0) (Cpp.Num 0.1)) 2)
                        (Cpp.Pow (Cpp.Sub (Cpp.X 1) (Cpp.Num 0.3)) 2))
               (Cpp.Mul (Cpp.Num 0.05) (Cpp.Num 0.05)))
       (Cpp.Num 0.1) (Cpp.Num 0)] 1.
Definition f_3 : expr := Constant (Scalar (Py.Int 0)).

Definition T : Py.num := Py.Float 0.5.       (* final time *)
Definition num_steps : Z := 500.             (* number of time steps *)

(** [K = Constant(K)] and [eps = Constant(eps)], after [K = 10.0] and
    [eps = 0.01]. *)
Definition K : expr := Constant (Scalar (Py.Float 10.0)).
Definition eps : expr := Constant (Scalar (Py.Float 0.01)).

(** The residual, as a function of what the name [k] is bound to where it
    is built. *)
Definition F (k : expr) : form :=
  ( ((u_1 - u_n1) / k)*v_1*dx + dot (Function w) (grad u_1) *v_1*dx
  + eps * dot (grad u_1) (grad v_1) *dx + K*u_1*u_2*v_1*dx
  + ((u_2 - u_n2) / k)*v_2*dx + dot (Function w) (grad u_2) *v_2*dx
  + eps * dot (grad u_2) (grad v_2) *dx + K*u_1*u_2*v_2*dx
  + ((u_3 - u_n3) / k)*v_3*dx + dot (Function w) (grad u_3) *v_3*dx
  + eps * dot (grad u_3) (grad v_3) *dx - K*u_1*u_2*v_3*dx + K*u_3*v_3*dx
  - f_1*v_1*dx - f_2*v_2*dx - f_3*v_3*dx )%form.

(** ** Boundary conditions, events and the back end *)

Record bc : Type := DirichletBC
  { bc_space : space; bc_value : expr; bc_where : Cpp.code }.

(** The matrices and vectors of the projection solver. *)
Inductive tname : Type :=
| t_A1 | t_A2 | t_A3 | t_b1 | t_b2 | t_b3.

(** The calls into the finite-element library, in program order. *)
Inductive event : Type :=
| EvAssemble (a : aform) (into : tname)
| EvApply (b : bc) (on : tname)
| EvSolve (A : tname) (x : fname) (b : tname) (method precond : string)
| EvAssign (dst src : fname)
| EvSolveNonlinear (residual : form) (x : fname)
| EvFile (path : string)
| EvWrite (path : string) (f : fname) (component : nat) (t : Py.num)
| EvPrintMax (f : fname)
| EvProgress (fraction : Py.num).

(** The library itself: assembly, boundary conditions and the solvers are
    external.  As the specification has it, the solver calls are assumed
    to always succeed, so they are total functions here. *)
Class Backend : Type :=
  { Vec : Type;
    Tensor : Type;
    be_zero : Vec;
    be_assemble : aform -> (fname -> Vec) -> Tensor;
    be_apply : bc -> Tensor -> Tensor;
    be_solve : Tensor -> Vec -> Tensor -> string -> string -> Vec;
    be_newton : form -> fname -> (fname -> Vec) -> Vec }.

(** What a Python name that is rebound holds. *)
Inductive pyobj : Type :=
| ObjConstant (c : cval)
| ObjInt (z : Z).

Definition as_ufl (o : pyobj) : expr :=
  match o with
  | ObjConstant c => Constant c
  | ObjInt z => Lit (Py.Int z)
  end.

Inductive exn : Type :=
| ZeroDivisionError
| NameError.

Definition fname_eqb (a b : fname) : bool :=
  match a, b with
  | w, w | u, u | u_n, u_n | ns_u_k, ns_u_k | ns_u_, ns_u_
  | ns_p_k, ns_p_k | ns_p_, ns_p_ => true
  | _, _ => false
  end.

Section Machine.
Context {B : Backend}.

(** The values of the [Function] objects, the globals [t] and [k], and the
    library calls made so far. *)
Record state : Type := mkState
  { store : fname -> Vec;
    py_t : Py.num;
    py_k : option pyobj;
    trace : list event }.

Inductive result (A : Type) : Type :=
| Ok (a : A) (s : state)
| Raise (e : exn) (s : state).
Arguments Ok {A} a s.
Arguments Raise {A} e s.

Definition M (A : Type) : Type := state -> result A.

Definition ret {A} (a : A) : M A := fun s => Ok a s.

Definition bind {A C} (m : M A) (f : A -> M C) : M C :=
  fun s => match m s with
           | Ok a s' => f a s'
           | Raise e s' => Raise e s'
           end.

Definition raise {A} (e : exn) : M A := fun s => Raise e s.

Definition upd (st : fname -> Vec) (f : fname) (v : Vec) : fname -> Vec :=
  fun g => if fname_eqb f g then v else st g.

Definition emit (e : event) : M unit :=
  fun s => Ok tt (mkState (store s) (py_t s) (py_k s) (trace s ++ [e])).

Definition read (f : fname) : M Vec := fun s => Ok (store s f) s.

Definition snapshot : M (fname -> Vec) := fun s => Ok (store s) s.

Definition write (f : fname) (v : Vec) : M unit :=
  fun s => Ok tt (mkState (upd (store s) f v) (py_t s) (py_k s) (trace s)).

Definition get_t : M Py.num := fun s => Ok (py_t s) s.

Definition set_t (a : Py.num) : M unit :=
  fun s => Ok tt (mkState (store s) a (py_k s) (trace s)).

Definition get_k : M pyobj :=
  fun s => match py_k s with
           | Some o => Ok o s
           | None => Raise NameError s
           end.

Definition set_k (o : pyobj) : M unit :=
  fun s => Ok tt (mkState (store s) (py_t s) (Some o) (trace s)).

(** A Python arithmetic expression that may raise ZeroDivisionError. *)
Definition arith {A} (r : option A) : M A :=
  match r with
  | Some a => ret a
  | None => raise ZeroDivisionError
  end.

End Machine.

Arguments Ok {B A} a s.
Arguments Raise {B A} e s.

Declare Scope monad_scope.
Delimit Scope monad_scope with monad.
Notation "x <- m ;; f" := (bind m (fun x => f))
  (at level 61, m at next level, right associativity) : monad_scope.
Notation "m ;; f" := (bind m (fun _ => f))
  (at level 61, right associativity) : monad_scope.
Open Scope monad_scope.

Section Library.
Context {B : Backend}.

(** *** The library calls, as operations of the monad *)

(** An assembled matrix or vector, with the name the program gives it. *)
Record tensor : Type := mkTensor { t_name : tname; t_val : Tensor }.

(** [Function(V)]: a new function, all degrees of freedom zero. *)
Definition new_Function (f : fname) : M unit := write f be_zero.

(** [assemble(a)] *)
Definition assemble (a : aform) (into : tname) : M tensor :=
  emit (EvAssemble a into);;
  st <- snapshot;;
  ret (mkTensor into (be_assemble a st)).

(** [bc.apply(x)]: changes [x] in place. *)
Definition apply (b : bc) (x : tensor) : M tensor :=
  emit (EvApply b (t_name x));;
  ret (mkTensor (t_name x) (be_apply b (t_val x))).

(** [[bc.apply(x) for bc in bcs]] *)
Fixpoint apply_all (bcs : list bc) (x : tensor) : M tensor :=
  match bcs with
  | [] => ret x
  | b :: rest => x' <- apply b x;; apply_all rest x'
  end.

(** [solve(A, x.vector(), b, method, precond)]: [x] is the initial guess
    and receives the solution. *)
Definition solve (A : tensor) (x : fname) (b : tensor)
    (method precond : string) : M unit :=
  emit (EvSolve (t_name A) x (t_name b) method precond);;
  x0 <- read x;;
  write x (be_solve (t_val A) x0 (t_val b) method precond).

(** [solve(F == 0, x)] *)
Definition solve_nonlinear (residual : form) (x : fname) : M unit :=
  emit (EvSolveNonlinear residual x);;
  st <- snapshot;;
  write x (be_newton residual x st).

(** [dst.assign(src)]: copies the values. *)
Definition assign (dst src : fname) : M unit :=
  emit (EvAssign dst src);;
  v <- read src;;
  write dst v.

(** [File(path)] *)
Definition File (path : string) : M string :=
  emit (EvFile path);; ret path.

(** [file << (component i of f, t)] *)
Definition put_sample (file : string) (f : fname) (i : nat) (t : Py.num)
    : M unit :=
  emit (EvWrite file f i t).

(** [for x in l: body] *)
Fixpoint for_ {A} (l : list A) (body : A -> M unit) : M unit :=
  match l with
  | [] => ret tt
  | x :: rest => body x;; for_ rest body
  end.

End Library.

(** ** The domain *)

Inductive geometry : Type :=
| Rectangle (p q : Q * Q)
| Circle (c : Q * Q) (r : Q) (segments : nat)
| Difference (a b : geometry).

Record mesh_t : Type := generate_mesh
  { mesh_domain : geometry; mesh_resolution : nat }.

Definition channel : geometry := Rectangle (0, 0) (2.2, 0.41).
Definition cylinder : geometry := Circle (0.2, 0.2) 0.05 16.
Definition domain : geometry := Difference channel cylinder.
Definition mesh : mesh_t := generate_mesh domain 64.

(** [len(e)] for the expressions of the script: the number of components
    of a vector-valued expression over the two-dimensional mesh (0 for a
    scalar). *)
Fixpoint len (e : expr) : nat :=
  match e with
  | Function f =>
      match f with
      | w | ns_u_k | ns_u_ => 2%nat
      | u | u_n => 3%nat
      | ns_p_k | ns_p_ => 0%nat
      end
  | TestFunction sp | TrialFunction sp =>
      match sp with
      | W | ns_V => 2%nat
      | V => 3%nat
      | ns_Q => 0%nat
      end
  | Constant (Vector l) => List.length l
  | Expression c _ => match c with [_] => 0%nat | _ => List.length c end
  | Add a _ | Sub a _ | TrueDiv a _ => len a
  | Mul a b => match len a with O => len b | n => n end
  | FacetNormal => 2%nat
  | Identity n => n
  | grad a | nabla_grad a => match len a with O => 2%nat | n => n end
  | sym a => len a
  | _ => 0%nat
  end.

(** ** The projection solver *)
Module NavierStokesSolver.

Definition inflow : Cpp.code := Cpp.Near (Cpp.X 0) (Cpp.Num 0).
Definition outflow : Cpp.code := Cpp.Near (Cpp.X 0) (Cpp.Num 2.2).
Definition walls : Cpp.code :=
  Cpp.Or (Cpp.Near (Cpp.X 1) (Cpp.Num 0)) (Cpp.Near (Cpp.X 1) (Cpp.Num 0.41)).
Definition cylinder : Cpp.code :=
  Cpp.And (Cpp.And (Cpp.And (Cpp.And Cpp.OnBoundary
    (Cpp.Gt (Cpp.X 0) (Cpp.Num 0.1))) (Cpp.Lt (Cpp.X 0) (Cpp.Num 0.3)))
    (Cpp.Gt (Cpp.X 1) (Cpp.Num 0.1))) (Cpp.Lt (Cpp.X 1) (Cpp.Num 0.3)).

(** [('4.0*1.5*x[1]*(0.41 - x[1]) / pow(0.41, 2)', '0')] *)
Definition inflow_profile : list Cpp.code :=
  [ Cpp.Div
      (Cpp.Mul (Cpp.Mul (Cpp.Mul (Cpp.Num 4.0) (Cpp.Num 1.5)) (Cpp.X 1))
               (Cpp.Sub (Cpp.Num 0.41) (Cpp.X 1)))
      (Cpp.Pow (Cpp.Num 0.41) 2);
    Cpp.Num 0 ].

Definition rho : expr := Lit (Py.Int 1).                    (* density *)
Definition f : expr := Constant (Vector [Py.Int 0; Py.Int 0]).
Definition mu : expr := Constant (Scalar (Py.Float 0.001)). (* dynamic viscosity *)

Definition epsilon (u : expr) : expr := sym (nabla_grad u).

Definition sigma (u p : expr) : expr :=
  Lit (Py.Int 2) * mu * epsilon u - p * Identity (len u).

Section Class.
Context {B : Backend}.

(** The attributes [__init__] sets on [self]. *)
Record obj : Type := mkObj
  { V : space; Q : space;
    bcu : list bc; bcp : list bc;
    v : expr; q : expr; u : expr; p : expr;
    u_k : fname; u_ : fname; p_k : fname; p_ : fname;
    DT : expr; u_mid : expr; n : expr;
    F1 : form; a1 : aform; L1 : aform; A1 : tensor;
    a2 : aform; L2 : aform; A2 : tensor;
    a3 : aform; L3 : aform; A3 : tensor }.

Definition __init__ (mesh : mesh_t) (dt : Py.num) : M obj :=
  let V := ns_V in
  let Q := ns_Q in
  let bcu_inflow := DirichletBC V (Expression inflow_profile 2) inflow in
  let bcu_walls := DirichletBC V (Constant (Vector [Py.Int 0; Py.Int 0])) walls in
  let bcu_cylinder := DirichletBC V (Constant (Vector [Py.Int 0; Py.Int 0])) cylinder in
  let bcp_outflow := DirichletBC Q (Constant (Scalar (Py.Int 0))) outflow in
  let bcu := [bcu_inflow; bcu_walls; bcu_cylinder] in
  let bcp := [bcp_outflow] in
  let v := TestFunction V in
  let q := TestFunction Q in
  let u := TrialFunction V in
  let p := TrialFunction Q in
  new_Function ns_u_k;;
  new_Function ns_u_;;
  new_Function ns_p_k;;
  new_Function ns_p_;;
  let u_k := Function ns_u_k in
  let u_ := Function ns_u_ in
  let p_k := Function ns_p_k in
  let p_ := Function ns_p_ in
  let DT := Constant (Scalar dt) in
  let u_mid := (Lit (Py.Float 0.5) * (u_k + u))%ufl in
  let n := FacetNormal in
  let F1 :=
    ( rho * dot ((u - u_k) / DT) v *dx
    + rho * dot (dot u_k (nabla_grad u_k)) v *dx
    + inner (sigma u_mid p_k) (epsilon v) *dx
    + dot (p_k * n) v *ds - dot (mu * nabla_grad u_mid * n) v *ds
    - dot f v *dx )%form in
  let a1 := lhs F1 in
  let L1 := rhs F1 in
  A1 <- assemble a1 t_A1;;
  A1 <- apply_all bcu A1;;
  let a2 := plain (dot (nabla_grad p) (nabla_grad q) *dx) in
  let L2 := plain ( dot (nabla_grad p_k) (nabla_grad q) *dx
                  - (Lit (Py.Int 1) / DT) * div u_ * q *dx ) in
  A2 <- assemble a2 t_A2;;
  A2 <- apply_all bcp A2;;
  let a3 := plain (dot u v *dx) in
  let L3 := plain ( dot u_ v *dx
                  - DT * dot (nabla_grad (p_ - p_k)) v *dx ) in
  A3 <- assemble a3 t_A3;;
  ret (mkObj V Q bcu bcp v q u p ns_u_k ns_u_ ns_p_k ns_p_
             DT u_mid n F1 a1 L1 A1 a2 L2 A2 a3 L3 A3).

Definition advance (self : obj) : M unit :=
  (* Step 1: Tentative velocity step *)
  b1 <- assemble (L1 self) t_b1;;
  b1 <- apply_all (bcu self) b1;;
  solve (A1 self) (u_ self) b1 "bicgstab" "ilu";;
  (* Step 2: Pressure correction step *)
  b2 <- assemble (L2 self) t_b2;;
  b2 <- apply_all (bcp self) b2;;
  solve (A2 self) (p_ self) b2 "bicgstab" "ilu";;
  (* Step 3: Velocity correction step *)
  b3 <- assemble (L3 self) t_b3;;
  solve (A3 self) (u_ self) b3 "cg" "sor";;
  (* Update previous solution *)
  assign (u_k self) (u_ self);;
  assign (p_k self) (p_ self).

End Class.
End NavierStokesSolver.

(** ** The script *)

(** The test [k%out_interval == 0 or k == num_steps]. *)
Definition output_due (k : Z) (out_interval : Py.num) : option bool :=
  match Py.mod_ (Py.Int k) out_interval with
  | Some r => Some (Py.eq r (Py.Int 0) || Py.eq (Py.Int k) (Py.Int num_steps))
  | None => None
  end.

Section Script.
Context {B : Backend}.

(** The body of [if k%out_interval == 0 or k == num_steps:]. *)
Definition save_solution (vtkfile_u_1 vtkfile_u_2 vtkfile_u_3 : string)
    : M unit :=
  t <- get_t;;
  (* _u_1, _u_2, _u_3 = u.split() *)
  put_sample vtkfile_u_1 u 0 t;;
  put_sample vtkfile_u_2 u 1 t;;
  put_sample vtkfile_u_3 u 2 t;;
  emit (EvPrintMax u).

(** The body of [for k in range(num_steps):]. *)
Definition step (nss : NavierStokesSolver.obj) (F : form)
    (vtkfile_u_1 vtkfile_u_2 vtkfile_u_3 : string)
    (dt out_interval : Py.num) (k : Z) : M unit :=
  (* Update current time *)
  t <- get_t;;
  set_t (Py.add t dt);;
  (* Advance the Navier-Stokes solver in time *)
  NavierStokesSolver.advance nss;;
  (* Copy velocities from Navier-Stokes solver to a-d-r solver *)
  assign w (NavierStokesSolver.u_k nss);;
  (* Solve variational problem for time step *)
  solve_nonlinear F u;;
  due <- arith (output_due k out_interval);;
  (if due : bool
   then save_solution vtkfile_u_1 vtkfile_u_2 vtkfile_u_3
   else ret tt);;
  (* Update previous solution *)
  assign u_n u;;
  (* Update progress bar *)
  t <- get_t;;
  fraction <- arith (Py.truediv t T);;
  emit (EvProgress fraction).

(** The loop: each iteration first rebinds the name [k]. *)
Definition time_stepping (nss : NavierStokesSolver.obj) (F : form)
    (vtkfile_u_1 vtkfile_u_2 vtkfile_u_3 : string)
    (dt out_interval : Py.num) (ks : list Z) : M unit :=
  for_ ks (fun k =>
    set_k (ObjInt k);;
    step nss F vtkfile_u_1 vtkfile_u_2 vtkfile_u_3 dt out_interval k).

(** The cells of the notebook, top to bottom.  Plotting, the progress bar
    object and the log level have no part in what follows and are left
    out. *)
Definition script : M unit :=
  (* Define functions for velocity and concentrations *)
  new_Function w;;
  new_Function u;;
  new_Function u_n;;
  dt <- arith (Py.truediv T (Py.Int num_steps));;
  (* k = Constant(dt) *)
  set_k (ObjConstant (Scalar dt));;
  k <- get_k;;
  let F := F (as_ufl k) in
  (* Create VTK files for visualization output *)
  vtkfile_u_1 <- File "reaction_system/u_1.pvd";;
  vtkfile_u_2 <- File "reaction_system/u_2.pvd";;
  vtkfile_u_3 <- File "reaction_system/u_3.pvd";;
  (* Time-stepping *)
  set_t (Py.Int 0);;
  out_interval <- arith (Py.truediv (Py.Int num_steps) (Py.Int 100));;
  nss <- NavierStokesSolver.__init__ mesh dt;;
  time_stepping nss F vtkfile_u_1 vtkfile_u_2 vtkfile_u_3 dt out_interval
    (Py.range num_steps).


End Script.


(** ** Reading forms *)

(** A form is a signed sum of integrals. *)
Definition term : Type := (bool * expr * measure)%type.

Definition negate (t : term) : term :=
  let '(sign, e, m) := t in (negb sign, e, m).

Fixpoint terms (f : form) : list term :=
  match f with
  | Integral e m => [(true, e, m)]
  | FAdd a b => terms a ++ terms b
  | FSub a b => terms a ++ map negate (terms b)
  end.

(** Does the unknown of a linear problem (a [TrialFunction]) occur? *)
Fixpoint has_trial (e : expr) : bool :=
  match e with
  | TrialFunction _ => true
  | Split a _ | grad a | nabla_grad a | div a | sym a => has_trial a
  | Add a b | Sub a b | Mul a b | TrueDiv a b | dot a b | inner a b =>
      has_trial a || has_trial b
  | _ => false
  end.

(** Is the expression of degree at most one in the unknown?  Sums of such
    are; a product is when one factor is and the other is free of the
    unknown; a quotient when the numerator is and the denominator is free
    of it. *)
Fixpoint affine_in_trial (e : expr) : bool :=
  match e with
  | Split a _ | grad a | nabla_grad a | div a | sym a => affine_in_trial a
  | Add a b | Sub a b => affine_in_trial a && affine_in_trial b
  | Mul a b | dot a b | inner a b =>
      (affine_in_trial a && negb (has_trial b))
      || (negb (has_trial a) && affine_in_trial b)
  | TrueDiv a b => affine_in_trial a && negb (has_trial b)
  | _ => true
  end.

(** The components of mixed functions that occur: for [F] these are the
    species, numbered from 0. *)
Fixpoint species (e : expr) : list nat :=
  match e with
  | Split _ i => [i]
  | grad a | nabla_grad a | div a | sym a => species a
  | Add a b | Sub a b | Mul a b | TrueDiv a b | dot a b | inner a b =>
      species a ++ species b
  | _ => []
  end.

(** The [Function] objects an expression, or a form, reads. *)
Fixpoint coefficients (e : expr) : list fname :=
  match e with
  | Function f => [f]
  | Split a _ | grad a | nabla_grad a | div a | sym a => coefficients a
  | Add a b | Sub a b | Mul a b | TrueDiv a b | dot a b | inner a b =>
      coefficients a ++ coefficients b
  | _ => []
  end.

Definition form_coefficients (f : form) : list fname :=
  flat_map (fun t : term => coefficients (snd (fst t))) (terms f).

(** ** The meaning of the residual at a point

    Enough of UFL to read [F]: scalars and plane vectors, the values and
    gradients of the components of the mixed functions, and the vector
    field [w]. *)
Module Pointwise.

Record point : Type :=
  { coord : nat -> Q;                   (* x[i] *)
    val : fname -> nat -> Q;            (* component i of a function *)
    dval : fname -> nat -> Q * Q;       (* its gradient *)
    tval : nat -> Q;                    (* component i of the test function *)
    dtval : nat -> Q * Q }.             (* its gradient *)

Inductive value : Type :=
| Sc (a : Q)
| Vc (a b : Q).

Definition lift2 (f : value -> value -> option value)
    (a b : option value) : option value :=
  match a, b with
  | Some x, Some y => f x y
  | _, _ => None
  end.

Definition vadd (x y : value) : option value :=
  match x, y with
  | Sc a, Sc b => Some (Sc (a + b))
  | Vc a b, Vc c d => Some (Vc (a + c) (b + d))
  | _, _ => None
  end.

Definition vsub (x y : value) : option value :=
  match x, y with
  | Sc a, Sc b => Some (Sc (a - b))
  | Vc a b, Vc c d => Some (Vc (a - c) (b - d))
  | _, _ => None
  end.

Definition vmul (x y : value) : option value :=
  match x, y with
  | Sc a, Sc b => Some (Sc (a * b))
  | Sc a, Vc c d => Some (Vc (a * c) (a * d))
  | Vc a b, Sc c => Some (Vc (a * c) (b * c))
  | _, _ => None
  end.

Definition vdiv (x y : value) : option value :=
  match x, y with
  | Sc a, Sc b => Some (Sc (a / b))
  | Vc a b, Sc c => Some (Vc (a / c) (b / c))
  | _, _ => None
  end.

Definition vdot (x y : value) : option value :=
  match x, y with
  | Sc a, Sc b => Some (Sc (a * b))
  | Vc a b, Vc c d => Some (Sc (a * c + b * d))
  | _, _ => None
  end.

Definition pair_value (p : Q * Q) : value := Vc (fst p) (snd p).

Section At.
Variable pt : point.

(** The value of a leaf, or of the gradient of a leaf. *)
Definition leaf (e : expr) : option value :=
  match e with
  | Split (Function f) i => Some (Sc (val pt f i))
  | Split (TestFunction _) i => Some (Sc (tval pt i))
  | Function w => Some (Vc (val pt w 0) (val pt w 1))
  | Constant (Scalar a) => Some (Sc (Py.to_Q a))
  | Lit a => Some (Sc (Py.to_Q a))
  | Expression [c] _ => Some (Sc (Cpp.eval 0 (coord pt) false c))
  | _ => None
  end.

Definition leaf_grad (e : expr) : option value :=
  match e with
  | Split (Function f) i => Some (pair_value (dval pt f i))
  | Split (TestFunction _) i => Some (pair_value (dtval pt i))
  | _ => None
  end.

Fixpoint eval (e : expr) : option value :=
  match e with
  | Add a b => lift2 vadd (eval a) (eval b)
  | Sub a b => lift2 vsub (eval a) (eval b)
  | Mul a b => lift2 vmul (eval a) (eval b)
  | TrueDiv a b => lift2 vdiv (eval a) (eval b)
  | dot a b | inner a b => lift2 vdot (eval a) (eval b)
  | grad a => leaf_grad a
  | _ => leaf e
  end.

(** The integrand of one term, with its sign; only the terms over the
    whole domain have a meaning here. *)
Definition integrand (t : term) : option Q :=
  match t with
  | (sign, e, dx) =>
      match eval e with
      | Some (Sc a) => Some (if sign then a else - a)
      | _ => None
      end
  | (_, _, ds) => None
  end.

Fixpoint total (l : list term) : option Q :=
  match l with
  | [] => Some 0
  | t :: r =>
      match integrand t, total r with
      | Some a, Some b => Some (a + b)
      | _, _ => None
      end
  end.

(** The notebook's variational problem: backward Euler in time, each
    species advected by [w] and diffused by [eps], the reaction
    [-K u_1 u_2] in the first two equations and [+K u_1 u_2 - K u_3] in
    the third, sources [f_i]. *)
Definition dotp (a b : Q * Q) : Q := fst a * fst b + snd a * snd b.

Definition transport (dt diffusivity : Q) (i : nat) : Q :=
  (val pt u i - val pt u_n i) / dt * tval pt i
  + dotp (val pt w 0, val pt w 1) (dval pt u i) * tval pt i
  + diffusivity * dotp (dval pt u i) (dtval pt i).

Definition weak_form (dt diffusivity rate : Q) (f1 f2 f3 : Q) : Q :=
  transport dt diffusivity 0 + transport dt diffusivity 1
  + transport dt diffusivity 2
  - (f1 * tval pt 0 + f2 * tval pt 1 + f3 * tval pt 2)
  - ( - rate * val pt u 0 * val pt u 1 * tval pt 0
      - rate * val pt u 0 * val pt u 1 * tval pt 1
      + rate * val pt u 0 * val pt u 1 * tval pt 2
      - rate * val pt u 2 * tval pt 2 ).

End At.
End Pointwise.

(** Does a term mix several species? *)
Definition mixes_species (t : term) : bool :=
  match species (snd (fst t)) with
  | [] => false
  | i :: rest => negb (forallb (Nat.eqb i) rest)
  end.

(** The source of the notebook's equations: 0.1 within 0.05 of
    [(cx, cy)], 0 elsewhere. *)
Definition source (pt : Pointwise.point) (cx cy : Q) : Q :=
  if Cpp.Qltb ((Pointwise.coord pt 0 - cx) ^ 2 + (Pointwise.coord pt 1 - cy) ^ 2)
              (0.05 * 0.05)
  then 0.1 else 0.

(** ** Reading traces *)

Definition tname_eqb (a b : tname) : bool :=
  match a, b with
  | t_A1, t_A1 | t_A2, t_A2 | t_A3, t_A3
  | t_b1, t_b1 | t_b2, t_b2 | t_b3, t_b3 => true
  | _, _ => false
  end.

Definition is_solve (e : event) : bool :=
  match e with EvSolve _ _ _ _ _ => true | _ => false end.

(** The boundary conditions applied to the tensor [x], in order. *)
Definition applied_on (x : tname) (evs : list event) : list bc :=
  flat_map (fun e => match e with
                     | EvApply b y => if tname_eqb x y then [b] else []
                     | _ => []
                     end) evs.

(** The forms assembled into the tensor [x], in order. *)
Definition assembled_into (x : tname) (evs : list event) : list aform :=
  flat_map (fun e => match e with
                     | EvAssemble a y => if tname_eqb x y then [a] else []
                     | _ => []
                     end) evs.

(** The solver object is one that [__init__] returned. *)
Definition built {B : Backend} (self : NavierStokesSolver.obj)
    (dt : Py.num) : Prop :=
  exists s0 s1, NavierStokesSolver.__init__ mesh dt s0 = Ok self s1.

(** [[bc.apply(x) for bc in bcs]] on the value of [x]. *)
Definition apply_vals {B : Backend} (bcs : list bc) (x : Tensor) : Tensor :=
  fold_left (fun y b => be_apply b y) bcs x.

Definition apply_events (bcs : list bc) (x : tname) : list event :=
  map (fun b => EvApply b x) bcs.

(** The library calls of one [advance], in order. *)
Definition advance_events {B : Backend} (self : NavierStokesSolver.obj)
    : list event :=
  let A1 := t_name (NavierStokesSolver.A1 self) in
  let A2 := t_name (NavierStokesSolver.A2 self) in
  let A3 := t_name (NavierStokesSolver.A3 self) in
  let u_ := NavierStokesSolver.u_ self in
  let p_ := NavierStokesSolver.p_ self in
  [EvAssemble (NavierStokesSolver.L1 self) t_b1]
  ++ apply_events (NavierStokesSolver.bcu self) t_b1
  ++ [EvSolve A1 u_ t_b1 "bicgstab" "ilu";
      EvAssemble (NavierStokesSolver.L2 self) t_b2]
  ++ apply_events (NavierStokesSolver.bcp self) t_b2
  ++ [EvSolve A2 p_ t_b2 "bicgstab" "ilu";
      EvAssemble (NavierStokesSolver.L3 self) t_b3;
      EvSolve A3 u_ t_b3 "cg" "sor";
      EvAssign (NavierStokesSolver.u_k self) u_;
      EvAssign (NavierStokesSolver.p_k self) p_].

(** The fields after one [advance], from the fields before it. *)
Definition advance_store {B : Backend} (self : NavierStokesSolver.obj)
    (st0 : fname -> Vec) : fname -> Vec :=
  let u_ := NavierStokesSolver.u_ self in
  let p_ := NavierStokesSolver.p_ self in
  let b1 := apply_vals (NavierStokesSolver.bcu self)
              (be_assemble (NavierStokesSolver.L1 self) st0) in
  let st1 := upd st0 u_
    (be_solve (t_val (NavierStokesSolver.A1 self)) (st0 u_) b1 "bicgstab" "ilu") in
  let b2 := apply_vals (NavierStokesSolver.bcp self)
              (be_assemble (NavierStokesSolver.L2 self) st1) in
  let st2 := upd st1 p_
    (be_solve (t_val (NavierStokesSolver.A2 self)) (st1 p_) b2 "bicgstab" "ilu") in
  let b3 := be_assemble (NavierStokesSolver.L3 self) st2 in
  let st3 := upd st2 u_
    (be_solve (t_val (NavierStokesSolver.A3 self)) (st2 u_) b3 "cg" "sor") in
  let st4 := upd st3 (NavierStokesSolver.u_k self) (st3 u_) in
  upd st4 (NavierStokesSolver.p_k self) (st4 p_).



(** ** What the script computes, in closed form *)

(** [T / num_steps] and [num_steps / 100]. *)
Definition dt_value : Py.num := Py.Float 0.001.
Definition out_interval_value : Py.num := Py.Float 5.

(** The test of the loop as a boolean. *)
Definition is_due (k : Z) (out_interval : Py.num) : bool :=
  match output_due k out_interval with
  | Some b => b
  | None => false
  end.

(** [t / T] *)
Definition fraction_of (t : Py.num) : Py.num :=
  Py.Float (Qred (Py.to_Q t / Py.to_Q T)).

Section Closed.
Context {B : Backend}.
Variable nss : NavierStokesSolver.obj.
Variable residual : form.
Variables vtkfile_u_1 vtkfile_u_2 vtkfile_u_3 : string.
Variables dt out_interval : Py.num.

(** The library calls of [__init__]. *)
Definition init_events : list event :=
  [EvAssemble (NavierStokesSolver.a1 nss) t_A1]
  ++ apply_events (NavierStokesSolver.bcu nss) t_A1
  ++ [EvAssemble (NavierStokesSolver.a2 nss) t_A2]
  ++ apply_events (NavierStokesSolver.bcp nss) t_A2
  ++ [EvAssemble (NavierStokesSolver.a3 nss) t_A3].

Definition init_store (st : fname -> Vec) : fname -> Vec :=
  upd (upd (upd (upd st ns_u_k be_zero) ns_u_ be_zero) ns_p_k be_zero)
      ns_p_ be_zero.

Definition save_events (t : Py.num) : list event :=
  [ EvWrite vtkfile_u_1 u 0 t; EvWrite vtkfile_u_2 u 1 t;
    EvWrite vtkfile_u_3 u 2 t; EvPrintMax u ].

(** The library calls of one iteration that ends at time [t]. *)
Definition step_events (t : Py.num) (k : Z) : list event :=
  advance_events nss
  ++ [ EvAssign w (NavierStokesSolver.u_k nss);
       EvSolveNonlinear residual u ]
  ++ (if is_due k out_interval then save_events t else [])
  ++ [ EvAssign u_n u; EvProgress (fraction_of t) ].

(** The fields after the velocity has been copied into [w]. *)
Definition copied_store (st : fname -> Vec) : fname -> Vec :=
  let st1 := advance_store nss st in
  upd st1 w (st1 (NavierStokesSolver.u_k nss)).

(** The fields after one iteration. *)
Definition step_store (st : fname -> Vec) : fname -> Vec :=
  let st2 := copied_store st in
  let st3 := upd st2 u (be_newton residual u st2) in
  upd st3 u_n (st3 u).

Fixpoint loop_events (t : Py.num) (ks : list Z) : list event :=
  match ks with
  | [] => []
  | k :: rest =>
      step_events (Py.add t dt) k ++ loop_events (Py.add t dt) rest
  end.

Fixpoint loop_store (st : fname -> Vec) (ks : list Z) : fname -> Vec :=
  match ks with
  | [] => st
  | _ :: rest => loop_store (step_store st) rest
  end.

Fixpoint loop_time (t : Py.num) (ks : list Z) : Py.num :=
  match ks with
  | [] => t
  | _ :: rest => loop_time (Py.add t dt) rest
  end.

(** What the name [k] is bound to after the loop. *)
Fixpoint loop_k (k0 : option pyobj) (ks : list Z) : option pyobj :=
  match ks with
  | [] => k0
  | k :: rest => loop_k (Some (ObjInt k)) rest
  end.

End Closed.

(** The library calls of the whole script. *)
Definition script_events {B : Backend} (nss : NavierStokesSolver.obj)
    : list event :=
  [ EvFile "reaction_system/u_1.pvd"; EvFile "reaction_system/u_2.pvd";
    EvFile "reaction_system/u_3.pvd" ]
  ++ init_events nss
  ++ loop_events nss (F (Constant (Scalar dt_value)))
       "reaction_system/u_1.pvd" "reaction_system/u_2.pvd"
       "reaction_system/u_3.pvd" dt_value out_interval_value
       (Py.Int 0) (Py.range num_steps).

(** The fields before [__init__]: [w], [u] and [u_n] are new. *)
Definition script_store0 {B : Backend} (st : fname -> Vec) : fname -> Vec :=
  upd (upd (upd st w be_zero) u be_zero) u_n be_zero.

(** The solves and the copies: what changes a field. *)
Definition is_key (e : event) : bool :=
  match e with
  | EvSolve _ _ _ _ _ | EvAssign _ _ | EvSolveNonlinear _ _ => true
  | _ => false
  end.

(** The solves and copies of one iteration: the three solves and the two
    updates of [advance], the copy of the velocity, the nonlinear solve,
    the update of the previous concentrations. *)
Definition iteration (residual : form) : list event :=
  [ EvSolve t_A1 ns_u_ t_b1 "bicgstab" "ilu";
    EvSolve t_A2 ns_p_ t_b2 "bicgstab" "ilu";
    EvSolve t_A3 ns_u_ t_b3 "cg" "sor";
    EvAssign ns_u_k ns_u_;
    EvAssign ns_p_k ns_p_;
    EvAssign w ns_u_k;
    EvSolveNonlinear residual u;
    EvAssign u_n u ].

Definition is_file (e : event) : bool :=
  match e with EvFile _ => true | _ => false end.

Definition is_write (e : event) : bool :=
  match e with EvWrite _ _ _ _ => true | _ => false end.

(** One sample of each concentration, each into its own file. *)
Definition sample_events (t : Py.num) : list event :=
  [ EvWrite "reaction_system/u_1.pvd" u 0 t;
    EvWrite "reaction_system/u_2.pvd" u 1 t;
    EvWrite "reaction_system/u_3.pvd" u 2 t ].

(** The samples of a run over the iterations [ks] that starts at time
    [t]: three every fifth iteration, none in between. *)
Fixpoint expected_writes (t : Py.num) (ks : list Z) : list event :=
  match ks with
  | [] => []
  | k :: rest =>
      (if (k mod 5 =? 0)%Z then sample_events (Py.add t dt_value) else [])
      ++ expected_writes (Py.add t dt_value) rest
  end.

(** The forms a call hands to the library. *)
Definition forms_used (e : event) : list aform :=
  match e with
  | EvAssemble a _ => [a]
  | EvSolveNonlinear residual _ => [plain residual]
  | _ => []
  end.

(** ** The domain, as a set of points

    The region a geometry denotes: its closed extent and its interior.
    The circle is the exact one; the mesher replaces it by a polygon. *)
Fixpoint in_closed (g : geometry) (p : Q * Q) : bool :=
  match g with
  | Rectangle a b =>
      Qle_bool (fst a) (fst p) && Qle_bool (fst p) (fst b)
      && Qle_bool (snd a) (snd p) && Qle_bool (snd p) (snd b)
  | Circle c r _ =>
      Qle_bool ((fst p - fst c) * (fst p - fst c)
                + (snd p - snd c) * (snd p - snd c)) (r * r)
  | Difference a b => in_closed a p && negb (in_open b p)
  end
with in_open (g : geometry) (p : Q * Q) : bool :=
  match g with
  | Rectangle a b =>
      Cpp.Qltb (fst a) (fst p) && Cpp.Qltb (fst p) (fst b)
      && Cpp.Qltb (snd a) (snd p) && Cpp.Qltb (snd p) (snd b)
  | Circle c r _ =>
      Cpp.Qltb ((fst p - fst c) * (fst p - fst c)
                + (snd p - snd c) * (snd p - snd c)) (r * r)
  | Difference a b => in_open a p && negb (in_closed b p)
  end.

Definition on_boundary_of (g : geometry) (p : Q * Q) : bool :=
  in_closed g p && negb (in_open g p).

(** The point [(a, b)] as the array [x] of a C++ snippet. *)
Definition coords (a b : Q) : nat -> Q :=
  fun i => match i with O => a | _ => b end.



(** The [Function] objects that multiply the unknown: those on which the
    matrix of a linear problem depends. *)
Fixpoint matrix_coefficients (e : expr) : list fname :=
  match e with
  | Split a _ | grad a | nabla_grad a | div a | sym a =>
      matrix_coefficients a
  | Add a b | Sub a b => matrix_coefficients a ++ matrix_coefficients b
  | Mul a b | dot a b | inner a b | TrueDiv a b =>
      (if has_trial a then matrix_coefficients a ++ coefficients b else [])
      ++ (if has_trial b then coefficients a ++ matrix_coefficients b else [])
  | _ => []
  end.

(** A point at which the test function is the constant vector
    [(c1, c2, c3)]. *)
Definition tested_with (pt : Pointwise.point) (c1 c2 c3 : Q)
    : Pointwise.point :=
  {| Pointwise.coord := Pointwise.coord pt;
     Pointwise.val := Pointwise.val pt;
     Pointwise.dval := Pointwise.dval pt;
     Pointwise.tval := fun i => match i with
                                | O => c1
                                | S O => c2
                                | _ => c3
                                end;
     Pointwise.dtval := fun _ => (0, 0) |}.

(** [w . grad(u_i)] at a point. *)
Definition advection (pt : Pointwise.point) (i : nat) : Q :=
  Pointwise.dotp (Pointwise.val pt w 0%nat, Pointwise.val pt w 1%nat)
                 (Pointwise.dval pt u i).

(** [(u_i - u_ni) / dt] at a point. *)
Definition rate_of_change (pt : Pointwise.point) (dt : Q) (i : nat) : Q :=
  (Pointwise.val pt u i - Pointwise.val pt u_n i) / dt.

(** The fields between two time steps: each "previous" field holds what
    its "current" field holds, and [w] the solver's velocity. *)
Definition settled {B : Backend} (st : fname -> Vec) : Prop :=
  st u_n = st u
  /\ st w = st ns_u_k
  /\ st ns_u_k = st ns_u_
  /\ st ns_p_k = st ns_p_.

(** The form inside what is assembled. *)
Definition form_of (a : aform) : form :=
  match a with
  | plain f | lhs f | rhs f => f
  end.

(** The [Function] objects on which the matrix of a form depends. *)
Definition form_matrix_coefficients (f : form) : list fname :=
  flat_map (fun t : term => matrix_coefficients (snd (fst t))) (terms f).

(** Does the unknown occur anywhere in a form? *)
Definition form_has_trial (f : form) : bool :=
  existsb (fun t : term => has_trial (snd (fst t))) (terms f).


(** * Theorems *)

Lemma truthy_of_bool (b : bool) : Cpp.truthy (Cpp.of_bool b) = b.
Proof. destruct b; reflexivity. Qed.

(** A solver object that [__init__] returned, field by field. *)
Ltac invert_built H :=
  let s0 := fresh "s0" in
  let s1 := fresh "s1" in
  destruct H as (s0 & s1 & H);
  unfold NavierStokesSolver.__init__ in H; cbn in H;
  inversion H; subst; clear H.

(** ** Running the library calls *)

Section Runs.
Context {B : Backend}.

Lemma apply_all_run (bcs : list bc) (x : tensor) (s : state) :
  apply_all bcs x s
  = Ok (mkTensor (t_name x) (apply_vals bcs (t_val x)))
       (mkState (store s) (py_t s) (py_k s)
                (trace s ++ apply_events bcs (t_name x))).
Proof.
  revert x s. induction bcs as [|b bcs IH]; intros [nm x] [st t k tr].
  - cbn. now rewrite app_nil_r.
  - cbn. unfold bind. cbn. rewrite IH. cbn.
    now rewrite <- app_assoc.
Qed.

Lemma advance_run (self : NavierStokesSolver.obj) (s : state) :
  NavierStokesSolver.advance self s
  = Ok tt (mkState (advance_store self (store s)) (py_t s) (py_k s)
                   (trace s ++ advance_events self)).
Proof.
  destruct s as [st t k tr].
  unfold NavierStokesSolver.advance, bind, assemble, solve, assign.
  cbn. rewrite apply_all_run. cbn. rewrite apply_all_run. cbn.
  unfold advance_store, advance_events. cbn.
  repeat rewrite <- app_assoc. reflexivity.
Qed.

End Runs.

Section LoopRuns.
Context {B : Backend}.

Lemma truediv_T (t : Py.num) : Py.truediv t T = Some (fraction_of t).
Proof. reflexivity. Qed.

Lemma output_due_some (k : Z) (out_interval : Py.num) :
  Py.is_zero out_interval = false ->
  output_due k out_interval = Some (is_due k out_interval).
Proof.
  intros H. unfold is_due, output_due, Py.mod_. rewrite H.
  destruct out_interval; reflexivity.
Qed.

Lemma init_run (dt : Py.num) (s : state) :
  exists self,
    NavierStokesSolver.__init__ mesh dt s
    = Ok self (mkState (init_store (store s)) (py_t s) (py_k s)
                       (trace s ++ init_events self)).
Proof.
  destruct s as [st t k tr]. eexists.
  unfold NavierStokesSolver.__init__. cbn.
  apply f_equal2; [reflexivity|].
  unfold init_events. cbn. repeat rewrite <- app_assoc. reflexivity.
Qed.

Lemma step_run (nss : NavierStokesSolver.obj) (residual : form)
    (f1 f2 f3 : string) (dt out_interval : Py.num) (k : Z) (s : state) :
  Py.is_zero out_interval = false ->
  step nss residual f1 f2 f3 dt out_interval k s
  = Ok tt (mkState (step_store nss residual (store s))
                   (Py.add (py_t s) dt) (py_k s)
                   (trace s ++ step_events nss residual f1 f2 f3
                                 out_interval (Py.add (py_t s) dt) k)).
Proof.
  intros Hz. destruct s as [st t k0 tr].
  unfold step, bind at 1. cbn [get_t py_t].
  unfold bind at 1. cbn [set_t store py_t py_k trace].
  unfold bind at 1. rewrite advance_run.
  cbn [store py_t py_k trace].
  unfold bind, assign, solve_nonlinear, save_solution, put_sample.
  cbn -[Py.truediv Py.add output_due advance_events].
  rewrite (output_due_some k _ Hz).
  unfold step_events, step_store, copied_store, save_events.
  destruct (is_due k out_interval);
    cbn -[Py.truediv Py.add fraction_of advance_events]; rewrite truediv_T;
    unfold arith, ret, emit;
    cbn -[Py.truediv Py.add fraction_of advance_events];
    repeat rewrite <- app_assoc; reflexivity.
Qed.

Lemma time_stepping_run (nss : NavierStokesSolver.obj) (residual : form)
    (f1 f2 f3 : string) (dt out_interval : Py.num) (ks : list Z) (s : state) :
  Py.is_zero out_interval = false ->
  time_stepping nss residual f1 f2 f3 dt out_interval ks s
  = Ok tt (mkState (loop_store nss residual (store s) ks)
                   (loop_time dt (py_t s) ks)
                   (loop_k (py_k s) ks)
                   (trace s ++ loop_events nss residual f1 f2 f3 dt
                                 out_interval (py_t s) ks)).
Proof.
  intros Hz. revert s. induction ks as [|k ks IH]; intros [st t k0 tr].
  - cbn. now rewrite app_nil_r.
  - unfold time_stepping in *. cbn [for_].
    unfold bind at 1. unfold bind at 1. cbn [set_k store py_t py_k trace].
    rewrite step_run by exact Hz. rewrite IH.
    cbn. now rewrite <- app_assoc.
Qed.

End LoopRuns.

(** C3. The residual [F], read at any point, is the backward-Euler weak
    form of the three concentration equations: each species is advected
    by [w] and diffused with the same [eps = 0.01], the reaction with rate
    [K = 10] enters as [+K u_1 u_2] against [v_1] and [v_2] and as
    [-K u_1 u_2 + K u_3] against [v_3]; every term is an integral over the
    domain, and the only terms in which two species meet are the three
    [K u_1 u_2] terms. *)
Theorem F_is_backward_euler_reaction_system :
  forall (dt : Py.num) (pt : Pointwise.point),
    let k := Constant (Scalar dt) in
    (exists r,
        Pointwise.total pt (terms (F k)) = Some r
        /\ r == Pointwise.weak_form pt (Py.to_Q dt) 0.01 10.0
                  (source pt 0.1 0.1) (source pt 0.1 0.3) 0)
    /\ Forall (fun t : term => snd t = dx) (terms (F k))
    /\ filter mixes_species (terms (F k))
       = [ (true, K * u_1 * u_2 * v_1, dx);
           (true, K * u_1 * u_2 * v_2, dx);
           (false, K * u_1 * u_2 * v_3, dx) ]%ufl.
Proof.
  intros dt pt k. split; [| split].
  - unfold k, F. cbn. rewrite !truthy_of_bool.
    eexists. split; [reflexivity|].
    unfold Pointwise.weak_form, Pointwise.transport, Pointwise.dotp, source.
    cbn. unfold Qdiv. ring.
  - unfold k, F. cbn. repeat constructor.
  - reflexivity.
Qed.

(** C4. In [F1] the convective term is built from the previous velocity
    [u_k] alone, in both slots, and is free of the unknown; the stress
    term is taken at [u_mid = 0.5*(u_k + u)]; every term of [F1] is of
    degree at most one in the unknown, which the convective term would
    not be with the unknown in its two slots. *)
Theorem F1_convection_explicit_stress_averaged :
  forall (B : Backend) (dt : Py.num) (s0 : state),
    exists self s1,
      NavierStokesSolver.__init__ mesh dt s0 = Ok self s1
      /\ let u := TrialFunction ns_V in
         let u_k := Function ns_u_k in
         let p_k := Function ns_p_k in
         let v := TestFunction ns_V in
         let rho := NavierStokesSolver.rho in
         let u_mid := NavierStokesSolver.u_mid self in
         let F1 := NavierStokesSolver.F1 self in
         let convection := (rho * dot (dot u_k (nabla_grad u_k)) v)%ufl in
         u_mid = (Lit (Py.Float 0.5) * (u_k + u))%ufl
         /\ nth_error (terms F1) 1 = Some (true, convection, dx)
         /\ coefficients convection = [ns_u_k; ns_u_k]
         /\ has_trial convection = false
         /\ nth_error (terms F1) 2
            = Some (true,
                    inner (NavierStokesSolver.sigma u_mid p_k)
                          (NavierStokesSolver.epsilon v),
                    dx)
         /\ NavierStokesSolver.sigma u_mid p_k
            = ( Lit (Py.Int 2) * NavierStokesSolver.mu
                * sym (nabla_grad (Lit (Py.Float 0.5) * (u_k + u)))
              - p_k * Identity 2 )%ufl
         /\ Forall (fun t : term => affine_in_trial (snd (fst t)) = true)
                   (terms F1)
         /\ affine_in_trial (rho * dot (dot u (nabla_grad u)) v)%ufl
            = false.
Proof.
  intros B dt s0. destruct (init_run dt s0) as [self H].
  assert (Hb : built self dt) by (eexists; eexists; exact H).
  exists self. eexists. split; [exact H|]. clear H.
  invert_built Hb. cbn.
  repeat (split; [reflexivity|]). split; [|reflexivity].
  repeat constructor.
Qed.

(** C1. Every call to [advance] makes exactly three linear solves, in
    this order: the tentative velocity into [u_] from [A1] with bicgstab
    and ilu; the pressure into [p_] from [A2] with bicgstab and ilu, its
    right-hand side [L2] carrying [-(1/DT) div(u_)] and assembled when
    [u_] holds the tentative velocity; the corrected velocity into [u_]
    from [A3] with cg and sor, its right-hand side [L3] being [u_] less
    [DT] times the gradient of [p_ - p_k]. *)
Theorem advance_three_solves_in_order :
  forall (B : Backend) (dt : Py.num) (s0 : state),
    exists self s1,
      NavierStokesSolver.__init__ mesh dt s0 = Ok self s1
      /\ forall s : state,
         let DT := Constant (Scalar dt) in
         let v := TestFunction ns_V in
         let q := TestFunction ns_Q in
         let st0 := store s in
         let b1 := apply_vals (NavierStokesSolver.bcu self)
                     (be_assemble (NavierStokesSolver.L1 self) st0) in
         let tentative :=
           be_solve (t_val (NavierStokesSolver.A1 self)) (st0 ns_u_) b1
                    "bicgstab" "ilu" in
         let st1 := upd st0 ns_u_ tentative in
         let b2 := apply_vals (NavierStokesSolver.bcp self)
                     (be_assemble (NavierStokesSolver.L2 self) st1) in
         let pressure :=
           be_solve (t_val (NavierStokesSolver.A2 self)) (st0 ns_p_) b2
                    "bicgstab" "ilu" in
         let st2 := upd st1 ns_p_ pressure in
         let b3 := be_assemble (NavierStokesSolver.L3 self) st2 in
         let corrected :=
           be_solve (t_val (NavierStokesSolver.A3 self)) tentative b3
                    "cg" "sor" in
         exists s' evs,
           NavierStokesSolver.advance self s = Ok tt s'
           /\ trace s' = trace s ++ evs
           /\ filter is_solve evs
              = [ EvSolve t_A1 ns_u_ t_b1 "bicgstab" "ilu";
                  EvSolve t_A2 ns_p_ t_b2 "bicgstab" "ilu";
                  EvSolve t_A3 ns_u_ t_b3 "cg" "sor" ]
           /\ NavierStokesSolver.L1 self = rhs (NavierStokesSolver.F1 self)
           /\ NavierStokesSolver.L2 self
              = plain ( dot (nabla_grad (Function ns_p_k)) (nabla_grad q) *dx
                      - (Lit (Py.Int 1) / DT) * div (Function ns_u_) * q *dx )
           /\ NavierStokesSolver.L3 self
              = plain ( dot (Function ns_u_) v *dx
                      - DT * dot (nabla_grad (Function ns_p_ - Function ns_p_k)) v *dx )
           /\ store s' ns_u_ = corrected
           /\ store s' ns_p_ = pressure
           /\ store s' ns_u_k = corrected
           /\ store s' ns_p_k = pressure.
Proof.
  intros B dt s0. destruct (init_run dt s0) as [self H].
  assert (Hb : built self dt) by (eexists; eexists; exact H).
  exists self. eexists. split; [exact H|]. clear H. intros s.
  invert_built Hb. cbn zeta.
  eexists. eexists. split; [apply advance_run|].
  split; [reflexivity|].
  repeat (split; [reflexivity|]). reflexivity.
Qed.




Section ScriptRun.
Context {B : Backend}.

Lemma bind_ok {A C} (m : M A) (f : A -> M C) (s s' : state) (a : A) :
  m s = Ok a s' -> bind m f s = f a s'.
Proof. intros H. unfold bind. now rewrite H. Qed.

Lemma dt_is_dt_value :
  Py.truediv T (Py.Int num_steps) = Some dt_value.
Proof. reflexivity. Qed.

Lemma out_interval_is_5 :
  Py.truediv (Py.Int num_steps) (Py.Int 100) = Some out_interval_value.
Proof. reflexivity. Qed.

Ltac step_bind :=
  erewrite bind_ok; [| reflexivity]; cbv beta; cbn [store py_t py_k trace].

(** The whole script runs to its end, whatever the library computes. *)
Lemma script_run (s : state) :
  exists nss,
    built nss dt_value
    /\ script s
       = Ok tt (mkState
                  (loop_store nss (F (Constant (Scalar dt_value)))
                     (init_store (script_store0 (store s)))
                     (Py.range num_steps))
                  (loop_time dt_value (Py.Int 0) (Py.range num_steps))
                  (loop_k (Some (ObjConstant (Scalar dt_value)))
                     (Py.range num_steps))
                  (trace s ++ script_events nss)).
Proof.
  destruct s as [st t k tr]. unfold script.
  do 3 step_bind.
  rewrite dt_is_dt_value. do 7 step_bind.
  rewrite out_interval_is_5. step_bind.
  match goal with
  | |- context [bind (NavierStokesSolver.__init__ mesh ?d) _ ?s0] =>
      destruct (init_run d s0) as [nss Hn]
  end.
  exists nss. split; [eexists; eexists; exact Hn|].
  erewrite bind_ok; [| exact Hn]. cbv beta zeta.
  rewrite time_stepping_run by reflexivity.
  cbn [store py_t py_k trace]. unfold script_events, script_store0.
  repeat rewrite <- app_assoc. reflexivity.
Qed.

End ScriptRun.

Section Counting.
Context {B : Backend}.

Lemma length_range (n : Z) : List.length (Py.range n) = Z.to_nat n.
Proof. unfold Py.range. now rewrite length_map, length_seq. Qed.

Lemma key_advance (nss : NavierStokesSolver.obj) (dt : Py.num) :
  built nss dt ->
  filter is_key (advance_events nss)
  = [ EvSolve t_A1 ns_u_ t_b1 "bicgstab" "ilu";
      EvSolve t_A2 ns_p_ t_b2 "bicgstab" "ilu";
      EvSolve t_A3 ns_u_ t_b3 "cg" "sor";
      EvAssign ns_u_k ns_u_;
      EvAssign ns_p_k ns_p_ ].
Proof. intros H. invert_built H. reflexivity. Qed.

Lemma key_init (nss : NavierStokesSolver.obj) (dt : Py.num) :
  built nss dt -> filter is_key (init_events nss) = [].
Proof. intros H. invert_built H. reflexivity. Qed.

Lemma key_step (nss : NavierStokesSolver.obj) (dt0 : Py.num)
    (residual : form) (f1 f2 f3 : string) (oi t : Py.num) (k : Z) :
  built nss dt0 ->
  filter is_key (step_events nss residual f1 f2 f3 oi t k)
  = iteration residual.
Proof.
  intros H. unfold step_events. rewrite filter_app, (key_advance H).
  invert_built H. cbn -[is_due]. destruct (is_due k oi); reflexivity.
Qed.

Lemma key_loop (nss : NavierStokesSolver.obj) (dt0 : Py.num)
    (residual : form) (f1 f2 f3 : string) (dt oi t : Py.num) (ks : list Z) :
  built nss dt0 ->
  filter is_key (loop_events nss residual f1 f2 f3 dt oi t ks)
  = List.concat (repeat (iteration residual) (List.length ks)).
Proof.
  intros H. revert t. induction ks as [|k ks IH]; intros t.
  - reflexivity.
  - cbn [loop_events List.length repeat List.concat].
    now rewrite filter_app, (key_step _ _ _ _ _ _ _ H), IH.
Qed.

End Counting.

(** C6. The script runs to its end and, of the solves and copies it makes,
    there are exactly [num_steps] rounds of: the three solves and two
    updates of the projection solver, the copy of the velocity into [w],
    one nonlinear solve for [u], the update of [u_n]. *)
Theorem each_iteration_advances_once_then_solves_once :
  forall (B : Backend) (s : state),
    exists s' evs,
      script s = Ok tt s'
      /\ trace s' = trace s ++ evs
      /\ filter is_key evs
         = List.concat (repeat (iteration (F (Constant (Scalar dt_value))))
                          (Z.to_nat num_steps))
      /\ Z.to_nat num_steps = 500%nat.
Proof.
  intros B s. destruct (script_run s) as (nss & Hb & Hrun).
  eexists. eexists. split; [exact Hrun|].
  split; [reflexivity|]. split; [|reflexivity].
  unfold script_events.
  rewrite !filter_app, (key_init Hb), (key_loop _ _ _ _ _ _ _ _ Hb).
  now rewrite length_range.
Qed.

(** C5. In an iteration the velocity is copied from the solver's [u_k]
    into [w] after [advance] and before the concentration solve; that
    solve writes [u] alone, from a residual that reads [w], [u] and [u_n]
    only, so the solver's [u_k], [u_], [p_k] and [p_] are after it, and
    at the end of the iteration, what [advance] left. *)
Theorem velocity_copied_in_not_fed_back :
  forall (B : Backend) (dt0 : Py.num) (s0 : state),
    exists nss s_init,
      NavierStokesSolver.__init__ mesh dt0 s0 = Ok nss s_init
      /\ forall (dt : Py.num) (residual : form) (f1 f2 f3 : string)
                (k : Z) (s : state),
         exists s1 s2 s3 rest,
           (t <- get_t;;
            set_t (Py.add t dt);;
            NavierStokesSolver.advance nss;;
            assign w (NavierStokesSolver.u_k nss)) s = Ok tt s1
           /\ store s1 w = store s1 ns_u_k
           /\ solve_nonlinear residual u s1 = Ok tt s2
           /\ store s2 u = be_newton residual u (store s1)
           /\ (forall f, In f [ns_u_k; ns_u_; ns_p_k; ns_p_; w; u_n] ->
                         store s2 f = store s1 f)
           /\ step nss residual f1 f2 f3 dt out_interval_value k s = Ok tt s3
           /\ trace s3
              = trace s ++ advance_events nss
                ++ [EvAssign w ns_u_k; EvSolveNonlinear residual u] ++ rest
           /\ (forall f, In f [ns_u_k; ns_u_; ns_p_k; ns_p_] ->
                         store s3 f = store s1 f)
           /\ Forall (fun f => In f [w; u; u_n])
                     (form_coefficients (F (Constant (Scalar dt)))).
Proof.
  intros B dt0 s0. destruct (init_run dt0 s0) as [nss H].
  assert (Hb : built nss dt0) by (eexists; eexists; exact H).
  exists nss. eexists. split; [exact H|]. clear H.
  intros dt residual f1 f2 f3 k s.
  destruct s as [st t k0 tr].
  eexists. eexists. eexists. eexists.
  split.
  { unfold bind at 1. cbn [get_t py_t]. unfold bind at 1.
    cbn [set_t store py_t py_k trace]. unfold bind at 1.
    rewrite advance_run. cbn [store py_t py_k trace].
    unfold assign, bind. cbn -[advance_store advance_events Py.add].
    reflexivity. }
  split.
  { invert_built Hb. reflexivity. }
  split; [reflexivity|]. split; [reflexivity|].
  split.
  { intros f Hf. cbn in Hf.
    repeat (destruct Hf as [<-|Hf]; [reflexivity|]). destruct Hf. }
  split; [apply step_run; reflexivity|].
  split.
  { cbn [trace]. unfold step_events. invert_built Hb. reflexivity. }
  split.
  { intros f Hf. invert_built Hb. cbn in Hf.
    repeat (destruct Hf as [<-|Hf]; [reflexivity|]). destruct Hf. }
  apply Forall_forall. intros f Hf. cbn in Hf.
  repeat (destruct Hf as [<-|Hf]; [cbn; tauto|]). destruct Hf.
Qed.

(** ** The output test *)



Lemma due_table :
  forallb (fun k => Bool.eqb (is_due k out_interval_value) (k mod 5 =? 0)%Z)
          (Py.range num_steps) = true.
Proof. vm_compute. reflexivity. Qed.

Lemma due_every_fifth (k : Z) :
  In k (Py.range num_steps) ->
  is_due k out_interval_value = (k mod 5 =? 0)%Z.
Proof.
  intros H. pose proof due_table as Ht.
  rewrite forallb_forall in Ht. apply Ht in H. now apply eqb_prop in H.
Qed.


Section Writes.
Context {B : Backend}.

Lemma writes_step (nss : NavierStokesSolver.obj) (dt0 : Py.num)
    (residual : form) (oi t : Py.num) (k : Z) :
  built nss dt0 ->
  filter is_write
    (step_events nss residual "reaction_system/u_1.pvd"
       "reaction_system/u_2.pvd" "reaction_system/u_3.pvd" oi t k)
  = if is_due k oi then sample_events t else [].
Proof.
  intros H. unfold step_events. invert_built H.
  cbn -[is_due]. destruct (is_due k oi); reflexivity.
Qed.

Lemma writes_loop (nss : NavierStokesSolver.obj) (dt0 : Py.num)
    (residual : form) (t : Py.num) (ks : list Z) :
  built nss dt0 ->
  (forall k, In k ks -> is_due k out_interval_value = (k mod 5 =? 0)%Z) ->
  filter is_write
    (loop_events nss residual "reaction_system/u_1.pvd"
       "reaction_system/u_2.pvd" "reaction_system/u_3.pvd"
       dt_value out_interval_value t ks)
  = expected_writes t ks.
Proof.
  intros H. revert t. induction ks as [|k ks IH]; intros t Hd.
  - reflexivity.
  - cbn [loop_events expected_writes].
    rewrite filter_app, (writes_step _ _ _ _ H), IH.
    + now rewrite (Hd k (or_introl eq_refl)).
    + intros j Hj. apply Hd. now right.
Qed.

End Writes.

(** C8. The script opens exactly three output files, [u_1.pvd], [u_2.pvd]
    and [u_3.pvd]; all it writes are samples of component [i] of [u] into
    the [i]-th file; an iteration writes one sample into each of the three
    files, all at the time of that iteration, or writes nothing; and it
    does so exactly in the iterations that are multiples of
    [out_interval = num_steps / 100 = 5]: 100 iterations, 300 samples. *)
Theorem three_files_sampled_together_every_fifth_step :
  forall (B : Backend) (s : state),
    exists s' evs,
      script s = Ok tt s'
      /\ trace s' = trace s ++ evs
      /\ filter is_file evs
         = [ EvFile "reaction_system/u_1.pvd";
             EvFile "reaction_system/u_2.pvd";
             EvFile "reaction_system/u_3.pvd" ]
      /\ Py.truediv (Py.Int num_steps) (Py.Int 100) = Some (Py.Float 5)
      /\ filter is_write evs
         = expected_writes (Py.Int 0) (Py.range num_steps)
      /\ List.length (filter is_write evs) = 300%nat.
Proof.
  intros B s. destruct (script_run s) as (nss & Hb & Hrun).
  assert (Hw : filter is_write (script_events nss)
               = expected_writes (Py.Int 0) (Py.range num_steps)).
  { unfold script_events. rewrite !filter_app.
    rewrite writes_loop with (dt0 := dt_value);
      [| exact Hb | intros k; apply due_every_fifth].
    pose proof Hb as Hb'. invert_built Hb'. reflexivity. }
  eexists. eexists. split; [exact Hrun|].
  split; [reflexivity|]. split.
  { unfold script_events. rewrite !filter_app.
    assert (Hl : forall t ks,
               filter is_file
                 (loop_events nss (F (Constant (Scalar dt_value)))
                    "reaction_system/u_1.pvd" "reaction_system/u_2.pvd"
                    "reaction_system/u_3.pvd" dt_value out_interval_value
                    t ks) = []).
    { intros t ks. revert t. induction ks as [|k ks IH]; intros t.
      - reflexivity.
      - cbn [loop_events]. rewrite filter_app, IH, app_nil_r.
        unfold step_events. pose proof Hb as Hb'. invert_built Hb'.
        cbn -[is_due]. destruct (is_due k out_interval_value); reflexivity. }
    rewrite Hl. pose proof Hb as Hb'. invert_built Hb'. reflexivity. }
  split; [reflexivity|]. split; [exact Hw|].
  rewrite Hw. vm_compute. reflexivity.
Qed.

Section Forms.
Context {B : Backend}.

Lemma forms_step (nss : NavierStokesSolver.obj) (dt0 : Py.num)
    (residual : form) (f1 f2 f3 : string) (oi t : Py.num) (k : Z) :
  built nss dt0 ->
  flat_map forms_used (step_events nss residual f1 f2 f3 oi t k)
  = [ NavierStokesSolver.L1 nss; NavierStokesSolver.L2 nss;
      NavierStokesSolver.L3 nss; plain residual ].
Proof.
  intros H. unfold step_events. invert_built H.
  cbn -[is_due]. destruct (is_due k oi); reflexivity.
Qed.

Lemma forms_loop (nss : NavierStokesSolver.obj) (dt0 : Py.num)
    (residual : form) (f1 f2 f3 : string) (dt oi t : Py.num) (ks : list Z) :
  built nss dt0 ->
  flat_map forms_used (loop_events nss residual f1 f2 f3 dt oi t ks)
  = List.concat
      (repeat [ NavierStokesSolver.L1 nss; NavierStokesSolver.L2 nss;
                NavierStokesSolver.L3 nss; plain residual ]
              (List.length ks)).
Proof.
  intros H. revert t. induction ks as [|k ks IH]; intros t.
  - reflexivity.
  - cbn [loop_events List.length repeat List.concat].
    rewrite flat_map_app, IH. f_equal.
    apply forms_step with (dt0 := dt0). exact H.
Qed.

Lemma loop_time_fold (dt t : Py.num) (ks : list Z) :
  loop_time dt t ks = fold_left (fun a _ => Py.add a dt) ks t.
Proof. revert t. induction ks as [|k ks IH]; intros t; cbn; auto. Qed.

End Forms.

(** C9. [dt = T / num_steps] is computed once; the solver keeps it as
    [DT], the residual keeps it as the [Constant] the name [k] held when
    [F] was built.  In every iteration the forms handed to the library are
    the same [L1], [L2], [L3] carrying [DT] and the same [F] carrying that
    constant, and the time advances by the same [dt].  The loop rebinds
    [k] to the index (499 at the end), yet a residual built from an index
    is none of the residuals solved. *)
Theorem time_step_fixed_and_F_keeps_its_constant :
  forall (B : Backend) (s : state),
    exists nss s' evs,
      built nss dt_value
      /\ script s = Ok tt s'
      /\ trace s' = trace s ++ evs
      /\ Py.truediv T (Py.Int num_steps) = Some dt_value
      /\ NavierStokesSolver.DT nss = Constant (Scalar dt_value)
      /\ flat_map forms_used evs
         = [ NavierStokesSolver.a1 nss; NavierStokesSolver.a2 nss;
             NavierStokesSolver.a3 nss ]
           ++ List.concat
                (repeat [ NavierStokesSolver.L1 nss;
                          NavierStokesSolver.L2 nss;
                          NavierStokesSolver.L3 nss;
                          plain (F (Constant (Scalar dt_value))) ]
                        (Z.to_nat num_steps))
      /\ NavierStokesSolver.L1 nss = rhs (NavierStokesSolver.F1 nss)
      /\ nth_error (terms (NavierStokesSolver.F1 nss)) 0
         = Some (true,
                 (NavierStokesSolver.rho
                  * dot ((TrialFunction ns_V - Function ns_u_k)
                         / NavierStokesSolver.DT nss) (TestFunction ns_V))%ufl,
                 dx)
      /\ NavierStokesSolver.L2 nss
         = plain ( dot (nabla_grad (Function ns_p_k))
                       (nabla_grad (TestFunction ns_Q)) *dx
                 - (Lit (Py.Int 1) / NavierStokesSolver.DT nss)
                   * div (Function ns_u_) * TestFunction ns_Q *dx )
      /\ NavierStokesSolver.L3 nss
         = plain ( dot (Function ns_u_) (TestFunction ns_V) *dx
                 - NavierStokesSolver.DT nss
                   * dot (nabla_grad (Function ns_p_ - Function ns_p_k))
                         (TestFunction ns_V) *dx )
      /\ py_t s'
         = fold_left (fun t _ => Py.add t dt_value) (Py.range num_steps)
                     (Py.Int 0)
      /\ py_k s' = Some (ObjInt 499)
      /\ forall i : Z,
           F (as_ufl (ObjInt i)) <> F (Constant (Scalar dt_value)).
Proof.
  intros B s. destruct (script_run s) as (nss & Hb & Hrun).
  exists nss. eexists. eexists.
  split; [exact Hb|]. split; [exact Hrun|]. split; [reflexivity|].
  split; [reflexivity|].
  split; [pose proof Hb as H; invert_built H; reflexivity|].
  split.
  { unfold script_events. rewrite !flat_map_app.
    rewrite forms_loop with (dt0 := dt_value) by exact Hb.
    rewrite length_range.
    pose proof Hb as H. invert_built H. reflexivity. }
  split; [pose proof Hb as H; invert_built H; reflexivity|].
  split; [pose proof Hb as H; invert_built H; reflexivity|].
  split; [pose proof Hb as H; invert_built H; reflexivity|].
  split; [pose proof Hb as H; invert_built H; reflexivity|].
  split; [cbn [py_t]; apply loop_time_fold|].
  split; [cbn [py_k]; vm_compute; reflexivity|].
  intros i H. unfold F in H. cbn in H. congruence.
Qed.

(** ** Where the boundary conditions hold *)

Lemma Qltb_iff (a b : Q) : Cpp.Qltb a b = true <-> a < b.
Proof.
  unfold Cpp.Qltb. rewrite negb_true_iff.
  destruct (Qle_bool b a) eqn:E.
  - apply Qle_bool_iff in E. split; [discriminate|].
    intros H. exfalso. apply (Qlt_not_le _ _ H E).
  - split; [intros _|reflexivity]. apply Qnot_le_lt. intros H.
    apply Qle_bool_iff in H. congruence.
Qed.

Section Markers.
Variable tol : Q.
Variable x : nat -> Q.
Variable on_boundary : bool.

Lemma inflow_holds :
  Cpp.holds tol x on_boundary NavierStokesSolver.inflow = true
  <-> Qabs (x 0%nat - 0) <= tol.
Proof.
  unfold Cpp.holds. cbn. rewrite truthy_of_bool. apply Qle_bool_iff.
Qed.

Lemma outflow_holds :
  Cpp.holds tol x on_boundary NavierStokesSolver.outflow = true
  <-> Qabs (x 0%nat - 2.2) <= tol.
Proof.
  unfold Cpp.holds. cbn. rewrite truthy_of_bool. apply Qle_bool_iff.
Qed.

Lemma walls_hold :
  Cpp.holds tol x on_boundary NavierStokesSolver.walls = true
  <-> Qabs (x 1%nat - 0) <= tol \/ Qabs (x 1%nat - 0.41) <= tol.
Proof.
  unfold Cpp.holds. cbn. rewrite !truthy_of_bool, orb_true_iff.
  now rewrite !Qle_bool_iff.
Qed.

Lemma cylinder_holds :
  Cpp.holds tol x on_boundary NavierStokesSolver.cylinder = true
  <-> on_boundary = true
      /\ 0.1 < x 0%nat /\ x 0%nat < 0.3 /\ 0.1 < x 1%nat /\ x 1%nat < 0.3.
Proof.
  unfold Cpp.holds. cbn. rewrite !truthy_of_bool, !andb_true_iff.
  rewrite !Qltb_iff. tauto.
Qed.

Lemma inflow_profile_value :
  exists a,
    map (Cpp.eval tol x on_boundary) NavierStokesSolver.inflow_profile
    = [a; 0]
    /\ a == 4.0 * 1.5 * x 1%nat * (0.41 - x 1%nat) / (0.41 * 0.41).
Proof.
  eexists. split; [reflexivity|]. cbn. reflexivity.
Qed.

End Markers.

Lemma sq_nonneg (d : Q) : 0 <= d * d.
Proof.
  destruct (Qlt_le_dec d 0).
  - setoid_replace (d * d) with ((- d) * (- d)) by ring.
    apply Qmult_le_0_compat; lra.
  - apply Qmult_le_0_compat; lra.
Qed.

Lemma sq_bound (d : Q) : d * d <= 0.05 * 0.05 -> -0.1 < d /\ d < 0.1.
Proof.
  intros Hd. split; apply Qnot_le_lt; intros Hc.
  - assert (H : 0 <= (- d - 0.1) * (- d + 0.1))
      by (apply Qmult_le_0_compat; lra).
    setoid_replace ((- d - 0.1) * (- d + 0.1)) with (d * d - 0.01) in H
      by ring.
    lra.
  - assert (H : 0 <= (d - 0.1) * (d + 0.1))
      by (apply Qmult_le_0_compat; lra).
    setoid_replace ((d - 0.1) * (d + 0.1)) with (d * d - 0.01) in H
      by ring.
    lra.
Qed.

(** The obstacle, the circle of radius 0.05 about (0.2, 0.2), lies inside
    the box of the [cylinder] marker. *)
Lemma circle_in_box (a b : Q) :
  (a - 0.2) * (a - 0.2) + (b - 0.2) * (b - 0.2) == 0.05 * 0.05 ->
  0.1 < a /\ a < 0.3 /\ 0.1 < b /\ b < 0.3.
Proof.
  intros H.
  pose proof (sq_nonneg (a - 0.2)) as Ha.
  pose proof (sq_nonneg (b - 0.2)) as Hb.
  destruct (@sq_bound (a - 0.2)) as [? ?]; [lra|].
  destruct (@sq_bound (b - 0.2)) as [? ?]; [lra|].
  repeat split; lra.
Qed.

(** C7. The solver's Dirichlet conditions are: on the velocity space, the
    profile [(4.0*1.5*x[1]*(0.41 - x[1]) / 0.41^2, 0)] where [x[0]] is
    near 0, zero where [x[1]] is near 0 or 0.41, and zero at the boundary
    points inside the box that holds the obstacle; on the pressure space,
    zero where [x[0]] is near 2.2.  The three velocity conditions, and no
    other, are applied to the system of step 1; the pressure condition,
    and no other, to the system of step 2; none to the system of step 3,
    so that no velocity step uses anything but the velocity conditions. *)
Theorem dirichlet_data_of_projection_solver :
  forall (B : Backend) (dt : Py.num) (s0 : state),
    exists self s1 ievs,
      NavierStokesSolver.__init__ mesh dt s0 = Ok self s1
      /\ trace s1 = trace s0 ++ ievs
      /\ let zero2 := Constant (Vector [Py.Int 0; Py.Int 0]) in
         NavierStokesSolver.bcu self
         = [ DirichletBC ns_V (Expression NavierStokesSolver.inflow_profile 2)
                         NavierStokesSolver.inflow;
             DirichletBC ns_V zero2 NavierStokesSolver.walls;
             DirichletBC ns_V zero2 NavierStokesSolver.cylinder ]
         /\ NavierStokesSolver.bcp self
            = [ DirichletBC ns_Q (Constant (Scalar (Py.Int 0)))
                            NavierStokesSolver.outflow ]
         /\ (forall (tol : Q) (x : nat -> Q) (on_boundary : bool),
               (Cpp.holds tol x on_boundary NavierStokesSolver.inflow = true
                <-> Qabs (x 0%nat - 0) <= tol)
               /\ (exists a,
                      map (Cpp.eval tol x on_boundary)
                          NavierStokesSolver.inflow_profile = [a; 0]
                      /\ a == 4.0 * 1.5 * x 1%nat * (0.41 - x 1%nat)
                              / (0.41 * 0.41))
               /\ (Cpp.holds tol x on_boundary NavierStokesSolver.walls = true
                   <-> Qabs (x 1%nat - 0) <= tol \/ Qabs (x 1%nat - 0.41) <= tol)
               /\ (Cpp.holds tol x on_boundary NavierStokesSolver.cylinder = true
                   <-> on_boundary = true
                       /\ 0.1 < x 0%nat /\ x 0%nat < 0.3
                       /\ 0.1 < x 1%nat /\ x 1%nat < 0.3)
               /\ (Cpp.holds tol x on_boundary NavierStokesSolver.outflow = true
                   <-> Qabs (x 0%nat - 2.2) <= tol))
         /\ (forall a b : Q,
               (a - 0.2) * (a - 0.2) + (b - 0.2) * (b - 0.2) == 0.05 * 0.05 ->
               0.1 < a /\ a < 0.3 /\ 0.1 < b /\ b < 0.3)
         /\ forall s : state,
            exists s' evs,
              NavierStokesSolver.advance self s = Ok tt s'
              /\ trace s' = trace s ++ evs
              /\ applied_on t_A1 (ievs ++ evs) = NavierStokesSolver.bcu self
              /\ applied_on t_b1 (ievs ++ evs) = NavierStokesSolver.bcu self
              /\ applied_on t_A2 (ievs ++ evs) = NavierStokesSolver.bcp self
              /\ applied_on t_b2 (ievs ++ evs) = NavierStokesSolver.bcp self
              /\ applied_on t_A3 (ievs ++ evs) = []
              /\ applied_on t_b3 (ievs ++ evs) = [].
Proof.
  intros B dt s0. destruct (init_run dt s0) as [self H].
  assert (Hb : built self dt) by (eexists; eexists; exact H).
  exists self. eexists. exists (init_events self).
  split; [exact H|]. clear H. split; [reflexivity|].
  invert_built Hb. intros zero2.
  split; [reflexivity|]. split; [reflexivity|].
  split.
  { intros tol x ob.
    split; [apply inflow_holds|]. split; [apply inflow_profile_value|].
    split; [apply walls_hold|]. split; [apply cylinder_holds|].
    apply outflow_holds. }
  split; [exact circle_in_box|].
  intros s. eexists. eexists.
  split; [apply advance_run|].
  split; [reflexivity|].
  repeat (split; [reflexivity|]). reflexivity.
Qed.

(** * Further properties *)

(** ** The output test for any interval *)






(** ** The inflow profile and the source terms *)












(** ** The boundary markers on the domain *)

Lemma Qltb_false (a b : Q) : Cpp.Qltb a b = false <-> b <= a.
Proof.
  unfold Cpp.Qltb. rewrite negb_false_iff. apply Qle_bool_iff.
Qed.

Lemma near_exact (tol x c : Q) : 0 <= tol -> x == c -> Qabs (x - c) <= tol.
Proof.
  intros Ht E. apply Qabs_Qle_condition. lra.
Qed.

Lemma near_within (tol x c : Q) :
  Qabs (x - c) <= tol -> c - tol <= x /\ x <= c + tol.
Proof.
  intros H. apply Qabs_Qle_condition in H. lra.
Qed.

Lemma channel_closed (a b : Q) :
  in_closed channel (a, b) = true
  <-> 0 <= a /\ a <= 2.2 /\ 0 <= b /\ b <= 0.41.
Proof.
  cbn. rewrite !andb_true_iff, !Qle_bool_iff. tauto.
Qed.

Lemma channel_not_open (a b : Q) :
  in_open channel (a, b) = false
  <-> a <= 0 \/ 2.2 <= a \/ b <= 0 \/ 0.41 <= b.
Proof.
  cbn. rewrite !andb_false_iff, !Qltb_false. tauto.
Qed.

Lemma obstacle_circle (a b : Q) :
  on_boundary_of cylinder (a, b) = true
  <-> (a - 0.2) * (a - 0.2) + (b - 0.2) * (b - 0.2) == 0.05 * 0.05.
Proof.
  unfold on_boundary_of. cbn.
  rewrite andb_true_iff, negb_true_iff, Qle_bool_iff, Qltb_false.
  split; [intros [? ?]; lra | intros E; split; lra].
Qed.

(** With the tolerance of [near] between 0 and 0.1: every point of the
    boundary of the channel less the obstacle is matched by one of the
    four markers; the obstacle's circle belongs to that boundary; the
    [cylinder] marker matches no point that [inflow], [outflow] or [walls]
    match; and [inflow] and [outflow] match no common point.  So the
    obstacle condition never overrides the data of the outer boundary. *)
Theorem markers_cover_boundary_obstacle_apart :
  forall tol a b : Q,
    0 <= tol ->
    tol < 0.1 ->
    let holds := Cpp.holds tol (coords a b) true in
    (on_boundary_of domain (a, b) = true ->
       holds NavierStokesSolver.inflow = true
       \/ holds NavierStokesSolver.outflow = true
       \/ holds NavierStokesSolver.walls = true
       \/ holds NavierStokesSolver.cylinder = true)
    /\ (on_boundary_of cylinder (a, b) = true ->
          on_boundary_of domain (a, b) = true
          /\ holds NavierStokesSolver.cylinder = true)
    /\ (holds NavierStokesSolver.cylinder = true ->
          holds NavierStokesSolver.inflow = false
          /\ holds NavierStokesSolver.outflow = false
          /\ holds NavierStokesSolver.walls = false)
    /\ (holds NavierStokesSolver.inflow = true ->
          holds NavierStokesSolver.outflow = false).
Proof.
  intros tol a b Ht0 Ht1 holds.
  assert (Hcirc : on_boundary_of cylinder (a, b) = true ->
                  on_boundary_of domain (a, b) = true
                  /\ holds NavierStokesSolver.cylinder = true).
  { intros Hc. pose proof Hc as Hb. apply obstacle_circle in Hb.
    pose proof (circle_in_box Hb) as (? & ? & ? & ?).
    split.
    - unfold on_boundary_of in *. cbn [domain in_closed in_open].
      apply andb_true_iff in Hc. destruct Hc as [Hc1 Hc2].
      fold cylinder in Hc1, Hc2. rewrite Hc1, Hc2.
      assert (Hch : in_closed channel (a, b) = true)
        by (apply channel_closed; lra).
      rewrite Hch. cbn. now rewrite andb_false_r.
    - apply cylinder_holds. cbn. repeat split; lra. }
  split.
  { intros H. unfold on_boundary_of in H. cbn [domain in_closed in_open] in H.
    apply andb_true_iff in H. destruct H as [H1 H2].
    apply andb_true_iff in H1. destruct H1 as [Hch Hno].
    apply negb_true_iff, andb_false_iff in H2.
    apply channel_closed in Hch.
    destruct H2 as [H2|H2].
    - apply channel_not_open in H2. destruct H2 as [H2|[H2|[H2|H2]]].
      + left. apply inflow_holds. apply near_exact; [exact Ht0|cbn; lra].
      + right. left. apply outflow_holds.
        apply near_exact; [exact Ht0|cbn; lra].
      + right. right. left. apply walls_hold. left.
        apply near_exact; [exact Ht0|cbn; lra].
      + right. right. left. apply walls_hold. right.
        apply near_exact; [exact Ht0|cbn; lra].
    - right. right. right. apply Hcirc. unfold on_boundary_of.
      apply negb_false_iff in H2. now rewrite H2, Hno. }
  split; [exact Hcirc|].
  split.
  { intros H. apply cylinder_holds in H. cbn in H.
    destruct H as (_ & ? & ? & ? & ?).
    repeat split; apply not_true_is_false; intros Hc.
    - apply inflow_holds, near_within in Hc. cbn in Hc. lra.
    - apply outflow_holds, near_within in Hc. cbn in Hc. lra.
    - apply walls_hold in Hc. destruct Hc as [Hc|Hc];
        apply near_within in Hc; cbn in Hc; lra. }
  intros H. apply not_true_is_false. intros Hc.
  apply inflow_holds, near_within in H.
  apply outflow_holds, near_within in Hc. cbn in H, Hc. lra.
Qed.

Lemma markers_cover_boundary_obstacle_apart_witness :
  (0 <= (3 # 10000000000000000) /\ (3 # 10000000000000000) < 0.1)
  /\ (on_boundary_of domain (0, 0.2) = true ->
      Cpp.holds (3 # 10000000000000000) (coords 0 0.2) true
                NavierStokesSolver.inflow = true
      \/ Cpp.holds (3 # 10000000000000000) (coords 0 0.2) true
                   NavierStokesSolver.outflow = true
      \/ Cpp.holds (3 # 10000000000000000) (coords 0 0.2) true
                   NavierStokesSolver.walls = true
      \/ Cpp.holds (3 # 10000000000000000) (coords 0 0.2) true
                   NavierStokesSolver.cylinder = true).
Proof.
  assert (H0 : 0 <= (3 # 10000000000000000)) by discriminate.
  assert (H1 : (3 # 10000000000000000) < 0.1) by reflexivity.
  split; [split; assumption|].
  exact (proj1 (@markers_cover_boundary_obstacle_apart
                  (3 # 10000000000000000) 0 0.2 H0 H1)).
Defined.

(** ** Balances the residual keeps *)

(** Tested with constants, [F] loses its diffusion terms, and the
    reaction enters as follows.  Against [(1, -1, 0)] it cancels: the
    difference of the first two species changes by transport and by the
    sources alone.  Against [(1, 0, 1)] only the decay [K u_3] is left:
    what the reaction takes from the first species it gives to the third.
    Against [(1, 1, 1)] the reaction still removes [K u_1 u_2], so the
    total is not conserved. *)
Theorem reaction_balances_of_F :
  forall (dt : Py.num) (pt : Pointwise.point),
    let k := Constant (Scalar dt) in
    let d := rate_of_change pt (Py.to_Q dt) in
    let a := advection pt in
    let val := Pointwise.val pt u in
    let f1 := source pt 0.1 0.1 in
    let f2 := source pt 0.1 0.3 in
    (exists r,
        Pointwise.total (tested_with pt 1 (-1) 0) (terms (F k)) = Some r
        /\ r == (d 0%nat - d 1%nat) + (a 0%nat - a 1%nat) - (f1 - f2))
    /\ (exists r,
          Pointwise.total (tested_with pt 1 0 1) (terms (F k)) = Some r
          /\ r == (d 0%nat + d 2%nat) + (a 0%nat + a 2%nat) - f1
                  + 10.0 * val 2%nat)
    /\ (exists r,
          Pointwise.total (tested_with pt 1 1 1) (terms (F k)) = Some r
          /\ r == (d 0%nat + d 1%nat + d 2%nat)
                  + (a 0%nat + a 1%nat + a 2%nat) - (f1 + f2)
                  + 10.0 * val 0%nat * val 1%nat + 10.0 * val 2%nat).
Proof.
  intros dt pt k d a val f1 f2.
  split; [|split];
    unfold k, F; cbn; rewrite !truthy_of_bool;
    (eexists; split; [reflexivity|]);
    unfold d, a, val, f1, f2, rate_of_change, advection, Pointwise.dotp,
      source; cbn; unfold Qdiv; ring.
Qed.

(** ** What the solver and the loop body leave behind *)

Section Settled.
Context {B : Backend}.

Lemma step_store_settled (nss : NavierStokesSolver.obj) (dt0 : Py.num)
    (residual : form) (st : fname -> Vec) :
  built nss dt0 -> settled (step_store nss residual st).
Proof.
  intros H. invert_built H. unfold settled, step_store, copied_store.
  cbn. repeat split; reflexivity.
Qed.

Lemma loop_store_settled (nss : NavierStokesSolver.obj) (dt0 : Py.num)
    (residual : form) (ks : list Z) (st : fname -> Vec) :
  built nss dt0 -> ks <> [] -> settled (loop_store nss residual st ks).
Proof.
  intros H. revert st. induction ks as [|k ks IH]; intros st Hne.
  - contradiction.
  - cbn [loop_store]. destruct ks as [|k' ks].
    + cbn. now apply step_store_settled with (dt0 := dt0).
    + apply IH. discriminate.
Qed.

End Settled.

(** The solver object touches its own four fields only.  [__init__] sets
    them to zero and leaves [w], [u], [u_n] and the globals [t] and [k] as
    they were; [advance], from any state, never raises, leaves the same
    untouched, and ends with [u_k] equal to [u_] and [p_k] equal to
    [p_]. *)
Theorem solver_touches_only_its_fields :
  forall (B : Backend) (dt : Py.num) (s0 : state),
    exists self s1,
      NavierStokesSolver.__init__ mesh dt s0 = Ok self s1
      /\ (forall f, In f [ns_u_k; ns_u_; ns_p_k; ns_p_] ->
                    store s1 f = be_zero)
      /\ (forall f, In f [w; u; u_n] -> store s1 f = store s0 f)
      /\ py_t s1 = py_t s0
      /\ py_k s1 = py_k s0
      /\ forall s : state,
           exists s',
             NavierStokesSolver.advance self s = Ok tt s'
             /\ (forall f, In f [w; u; u_n] -> store s' f = store s f)
             /\ py_t s' = py_t s
             /\ py_k s' = py_k s
             /\ store s' ns_u_k = store s' ns_u_
             /\ store s' ns_p_k = store s' ns_p_.
Proof.
  intros B dt s0. destruct (init_run dt s0) as [self H].
  assert (Hb : built self dt) by (eexists; eexists; exact H).
  exists self. eexists. split; [exact H|]. clear H.
  split.
  { intros f Hf. cbn in Hf.
    repeat (destruct Hf as [<-|Hf]; [reflexivity|]). destruct Hf. }
  split.
  { intros f Hf. cbn in Hf.
    repeat (destruct Hf as [<-|Hf]; [reflexivity|]). destruct Hf. }
  split; [reflexivity|]. split; [reflexivity|].
  intros s. eexists. split; [apply advance_run|].
  invert_built Hb. split.
  { intros f Hf. cbn in Hf.
    repeat (destruct Hf as [<-|Hf]; [reflexivity|]). destruct Hf. }
  repeat (split; [reflexivity|]). reflexivity.
Qed.


(** The script, from any start state: when the loop starts every field is
    zero, and at the end the fields are settled, those of the solver and
    those of the concentrations alike. *)
Theorem script_starts_from_rest_and_ends_settled :
  forall (B : Backend) (s : state),
    exists nss st0 s',
      built nss dt_value
      /\ script s = Ok tt s'
      /\ (forall f, st0 f = be_zero)
      /\ store s'
         = loop_store nss (F (Constant (Scalar dt_value))) st0
                      (Py.range num_steps)
      /\ settled (store s').
Proof.
  intros B s. destruct (script_run s) as (nss & Hb & Hrun).
  exists nss, (init_store (script_store0 (store s))). eexists.
  split; [exact Hb|]. split; [exact Hrun|].
  split; [intros []; reflexivity|].
  split; [reflexivity|].
  cbn [store]. apply loop_store_settled with (dt0 := dt_value); [exact Hb|].
  intros E. apply (f_equal (@List.length Z)) in E.
  rewrite length_range in E. discriminate E.
Qed.

(** ** The three linear systems *)

(** None of the three matrices depends on a field: no [Function]
    multiplies the unknown in [F1], [a2] or [a3], so assembling them once
    in [__init__] loses nothing, although [u_k] changes every step; with
    the unknown in the convective term the matrix of step 1 would depend
    on [u_k].  The right-hand sides [L2] and [L3] are free of the unknown.
    Step 1 reads the previous fields [u_k] and [p_k] alone, step 2 reads
    [p_k] and the tentative [u_], step 3 reads [u_], [p_] and [p_k]. *)
Theorem matrices_constant_right_hand_sides_chained :
  forall (B : Backend) (dt : Py.num) (s0 : state),
    exists self s1,
      NavierStokesSolver.__init__ mesh dt s0 = Ok self s1
      /\ NavierStokesSolver.a1 self = lhs (NavierStokesSolver.F1 self)
      /\ form_matrix_coefficients (NavierStokesSolver.F1 self) = []
      /\ form_matrix_coefficients (form_of (NavierStokesSolver.a2 self)) = []
      /\ form_matrix_coefficients (form_of (NavierStokesSolver.a3 self)) = []
      /\ matrix_coefficients
           (NavierStokesSolver.rho
            * dot (dot (Function ns_u_k) (nabla_grad (TrialFunction ns_V)))
                  (TestFunction ns_V))%ufl = [ns_u_k]
      /\ form_has_trial (form_of (NavierStokesSolver.a2 self)) = true
      /\ form_has_trial (form_of (NavierStokesSolver.a3 self)) = true
      /\ form_has_trial (form_of (NavierStokesSolver.L2 self)) = false
      /\ form_has_trial (form_of (NavierStokesSolver.L3 self)) = false
      /\ (forall f, In f (form_coefficients (NavierStokesSolver.F1 self)) ->
                    f = ns_u_k \/ f = ns_p_k)
      /\ form_coefficients (form_of (NavierStokesSolver.L2 self))
         = [ns_p_k; ns_u_]
      /\ form_coefficients (form_of (NavierStokesSolver.L3 self))
         = [ns_u_; ns_p_; ns_p_k].
Proof.
  intros B dt s0. destruct (init_run dt s0) as [self H].
  assert (Hb : built self dt) by (eexists; eexists; exact H).
  exists self. eexists. split; [exact H|]. clear H.
  invert_built Hb.
  do 9 (split; [reflexivity|]).
  split.
  { intros f Hf. cbn in Hf.
    repeat (destruct Hf as [<-|Hf]; [tauto|]). destruct Hf. }
  split; reflexivity.
Qed.

(** ** The calls of the whole run *)

Section Readers.
Context {B : Backend}.

Lemma concat_repeat_nil {A} (n : nat) :
  List.concat (repeat (@nil A) n) = [].
Proof. induction n as [|n IH]; cbn; auto. Qed.

Lemma flat_map_loop {A} (g : event -> list A) (c : list A)
    (nss : NavierStokesSolver.obj) (residual : form) (f1 f2 f3 : string)
    (dt oi : Py.num) :
  (forall t k,
     flat_map g (step_events nss residual f1 f2 f3 oi t k) = c) ->
  forall t ks,
    flat_map g (loop_events nss residual f1 f2 f3 dt oi t ks)
    = List.concat (repeat c (List.length ks)).
Proof.
  intros Hs t ks. revert t. induction ks as [|k ks IH]; intros t.
  - reflexivity.
  - cbn [loop_events List.length repeat List.concat].
    now rewrite flat_map_app, Hs, IH.
Qed.

Lemma flat_map_script {A} (g : event -> list A) (c : list A)
    (nss : NavierStokesSolver.obj) :
  (forall p, g (EvFile p) = []) ->
  (forall t k,
     flat_map g (step_events nss (F (Constant (Scalar dt_value)))
                   "reaction_system/u_1.pvd" "reaction_system/u_2.pvd"
                   "reaction_system/u_3.pvd" out_interval_value t k) = c) ->
  flat_map g (script_events nss)
  = flat_map g (init_events nss)
    ++ List.concat (repeat c (Z.to_nat num_steps)).
Proof.
  intros Hf Hs. unfold script_events. rewrite !flat_map_app.
  rewrite flat_map_loop with (c := c) by exact Hs. rewrite length_range.
  cbn [flat_map]. now rewrite !Hf.
Qed.

End Readers.

(** A reader gives the same list on every iteration. *)
Ltac same_every_step Hb :=
  let H := fresh "H" in
  intros ? ?; unfold step_events; pose proof Hb as H; invert_built H;
  cbn -[is_due]; destruct (is_due _ _); reflexivity.

(** Over the whole script each matrix is assembled exactly once, and its
    boundary conditions applied to it once, both in [__init__]; each
    right-hand side is assembled once per time step, [b1] receiving the
    velocity conditions and [b2] the pressure condition each time; [A3]
    and [b3] never receive a boundary condition. *)
Theorem matrices_assembled_once_vectors_every_step :
  forall (B : Backend) (s : state),
    exists nss s' evs,
      built nss dt_value
      /\ script s = Ok tt s'
      /\ trace s' = trace s ++ evs
      /\ assembled_into t_A1 evs = [NavierStokesSolver.a1 nss]
      /\ assembled_into t_A2 evs = [NavierStokesSolver.a2 nss]
      /\ assembled_into t_A3 evs = [NavierStokesSolver.a3 nss]
      /\ applied_on t_A1 evs = NavierStokesSolver.bcu nss
      /\ applied_on t_A2 evs = NavierStokesSolver.bcp nss
      /\ applied_on t_A3 evs = []
      /\ assembled_into t_b1 evs
         = List.concat (repeat [NavierStokesSolver.L1 nss]
                               (Z.to_nat num_steps))
      /\ assembled_into t_b2 evs
         = List.concat (repeat [NavierStokesSolver.L2 nss]
                               (Z.to_nat num_steps))
      /\ assembled_into t_b3 evs
         = List.concat (repeat [NavierStokesSolver.L3 nss]
                               (Z.to_nat num_steps))
      /\ applied_on t_b1 evs
         = List.concat (repeat (NavierStokesSolver.bcu nss)
                               (Z.to_nat num_steps))
      /\ applied_on t_b2 evs
         = List.concat (repeat (NavierStokesSolver.bcp nss)
                               (Z.to_nat num_steps))
      /\ applied_on t_b3 evs = [].
Proof.
  intros B s. destruct (script_run s) as (nss & Hb & Hrun).
  exists nss. eexists. eexists.
  split; [exact Hb|]. split; [exact Hrun|]. split; [reflexivity|].
  unfold assembled_into, applied_on.
  repeat split.
  all: first
    [ rewrite flat_map_script with (c := []);
        [ rewrite concat_repeat_nil, app_nil_r;
          pose proof Hb as H; invert_built H; reflexivity
        | reflexivity
        | same_every_step Hb ]
    | erewrite flat_map_script;
        [ pose proof Hb as H; invert_built H; reflexivity
        | reflexivity
        | same_every_step Hb ] ].
Qed.

(** Within one pass of the loop body the samples, when there are any, are
    written after the nonlinear solve and before [u_n] is updated, and
    carry the time already advanced by [dt]: they show the freshly solved
    [u].  So the first sample of the run is stamped [dt], and the state at
    time 0 is never written. *)
Theorem samples_follow_the_solve_and_carry_the_new_time :
  forall (B : Backend) (s0 : state),
    exists nss s_end evs,
      script s0 = Ok tt s_end
      /\ trace s_end = trace s0 ++ evs
      /\ hd_error (filter is_write evs)
         = Some (EvWrite "reaction_system/u_1.pvd" u 0 dt_value)
      /\ forall (dt : Py.num) (residual : form) (f1 f2 f3 : string)
                (k : Z) (s : state),
           exists s' pre mid post,
             step nss residual f1 f2 f3 dt out_interval_value k s
             = Ok tt s'
             /\ trace s'
                = trace s ++ pre ++ [EvSolveNonlinear residual u]
                  ++ mid ++ [EvAssign u_n u] ++ post
             /\ filter is_write pre = []
             /\ filter is_write post = []
             /\ (mid = []
                 \/ mid = [ EvWrite f1 u 0 (Py.add (py_t s) dt);
                            EvWrite f2 u 1 (Py.add (py_t s) dt);
                            EvWrite f3 u 2 (Py.add (py_t s) dt);
                            EvPrintMax u ]).
Proof.
  intros B s0. destruct (script_run s0) as (nss & Hb & Hrun).
  exists nss. eexists. eexists.
  split; [exact Hrun|]. split; [reflexivity|].
  split.
  { unfold script_events. rewrite !filter_app.
    rewrite writes_loop with (dt0 := dt_value);
      [| exact Hb | intros k; apply due_every_fifth].
    pose proof Hb as H. invert_built H. vm_compute. reflexivity. }
  intros dt residual f1 f2 f3 k s.
  exists (mkState (step_store nss residual (store s))
                  (Py.add (py_t s) dt) (py_k s)
                  (trace s ++ step_events nss residual f1 f2 f3
                                out_interval_value (Py.add (py_t s) dt) k)).
  exists (advance_events nss ++ [EvAssign w (NavierStokesSolver.u_k nss)]).
  exists (if is_due k out_interval_value
          then save_events f1 f2 f3 (Py.add (py_t s) dt) else []).
  exists [EvProgress (fraction_of (Py.add (py_t s) dt))].
  split; [apply step_run; reflexivity|].
  split.
  { cbn [trace]. unfold step_events. now rewrite <- !app_assoc. }
  split.
  { rewrite filter_app. pose proof Hb as H. invert_built H. reflexivity. }
  split; [reflexivity|].
  destruct (is_due k out_interval_value); [right|left]; reflexivity.
Qed.

(** ** The loop over any range *)

Section AnyRange.
Context {B : Backend}.



End AnyRange.

